(** * The local document retriever of 05-rag-langchain

    A shallow embedding of the retrieval core of the repository:

    - [LocalVectorStore] of [indexer.py] and [indexer_with_json.py]
      (TF-IDF rows, cosine similarity, keyword fallback);
    - [LocalEmbeddingVectorStore] of [indexer_with_local_embeddings.py]
      (dense rows from a sentence encoder);
    - [create_vector_store] of [indexer.py] (remote embeddings with a
      local fallback).

    The Python builtins and the numpy operations the code relies on are
    written out as functions; the third-party models (scikit-learn's
    vectorizer and cosine similarity, the sentence encoder, the remote
    embedding store) are the fields of the class [Libraries]. *)

From Stdlib Require Import List Bool Arith ZArith QArith Lia.
From Stdlib Require Import String Ascii Permutation Sorted.
From Stdlib Require DecimalString.
Import ListNotations.

Close Scope Q_scope.

(** ** Python outcomes *)

(** The exceptions the modelled code paths can meet.  [except Exception]
    catches every one of them. *)
Inductive exn : Type :=
| IndexError
| NotFittedError
| ValueError
| ProviderError (reason : string).

(** What a call produces: a value, or a raised exception. *)
Inductive result (A : Type) : Type :=
| Ok (a : A)
| Raise (e : exn).

Arguments Ok {A} a.
Arguments Raise {A} e.

Definition bind {A B : Type} (r : result A) (k : A -> result B) : result B :=
  match r with
  | Ok a => k a
  | Raise e => Raise e
  end.

Notation "x <- r ;; k" := (bind r (fun x => k))
  (at level 61, r at next level, right associativity).

(** ** Python sequences *)

Module Py.

(** [l[start:]] for an integer [start], negative values counting from the
    end and both ends clamped, as Python and numpy slice. *)
Definition slice_from {A : Type} (start : Z) (l : list A) : list A :=
  let n := Z.of_nat (List.length l) in
  let s := if (start <? 0)%Z then Z.max (n + start) 0 else Z.min start n in
  skipn (Z.to_nat s) l.

(** [l[:stop]]. *)
Definition slice_to {A : Type} (stop : Z) (l : list A) : list A :=
  let n := Z.of_nat (List.length l) in
  let s := if (stop <? 0)%Z then Z.max (n + stop) 0 else Z.min stop n in
  firstn (Z.to_nat s) l.

(** A stable insertion sort: [insert] puts [x] in front of the first
    element it is below-or-equal to, so an element met earlier stays in
    front of the later ones it ties with. *)
Fixpoint insert {A : Type} (leb : A -> A -> bool) (x : A) (l : list A) : list A :=
  match l with
  | [] => [x]
  | y :: l' => if leb x y then x :: y :: l' else y :: insert leb x l'
  end.

Fixpoint sort {A : Type} (leb : A -> A -> bool) (l : list A) : list A :=
  match l with
  | [] => []
  | x :: l' => insert leb x (sort leb l')
  end.

(** [list.sort(key=..., reverse=True)] on integer keys: descending, and
    stable (Python keeps the original order of equal keys also when
    [reverse] is set). *)
Definition sort_desc {A : Type} (key : A -> Z) (l : list A) : list A :=
  sort (fun x y => (key y <=? key x)%Z) l.

(** [a.argsort()] on a one-dimensional array: the indices that put the
    scores in ascending order.  numpy's default kind does not promise an
    order among equal scores; this is the sort that keeps equal scores
    in ascending index order, as an insertion sort does.  What holds of
    every sort numpy may run is stated with [ascending] below. *)
Definition argsort (a : list Q) : list nat :=
  map fst (sort (fun x y => Qle_bool (snd x) (snd y))
                (combine (seq 0 (List.length a)) a)).

(** [a[i]] on an array of scores, for an index [argsort] produced. *)
Definition item (a : list Q) (i : nat) : Q := nth i a 0%Q.

(** What numpy documents of [a.argsort()] with the default [kind]: the
    result holds every index once and lists the scores in ascending
    order.  Nothing is said of the order among equal scores. *)
Definition ascending (a : list Q) (order : list nat) : Prop :=
  Permutation order (seq 0 (List.length a))
  /\ StronglySorted (fun i j => (item a i <= item a j)%Q) order.

(** [x > 0] on scores. *)
Definition positive (x : Q) : bool := negb (Qle_bool x 0).

End Py.

(** ** Python strings

    A text is a sequence of code points below 256 (Rocq's [string]); the
    case mapping and the white space are those of [str] on that range. *)

Module Str.

(** [c.isspace()]: TAB, LF, VT, FF, CR, FS, GS, RS, US, SPACE, NEL, NBSP. *)
Definition isspace (c : ascii) : bool :=
  let n := nat_of_ascii c in
  ((9 <=? n) && (n <=? 13)) || ((28 <=? n) && (n <=? 32))
  || (n =? 133) || (n =? 160).

(** [c.lower()]: A-Z, and the Latin-1 capitals other than the
    multiplication sign, move up by 32. *)
Definition lower_char (c : ascii) : ascii :=
  let n := nat_of_ascii c in
  if ((65 <=? n) && (n <=? 90))
     || ((192 <=? n) && (n <=? 222) && negb (n =? 215))
  then ascii_of_nat (n + 32) else c.

Fixpoint lower (s : string) : string :=
  match s with
  | EmptyString => EmptyString
  | String c s' => String (lower_char c) (lower s')
  end.

(** [s.split()]: the maximal runs of non-space characters, in order. *)
Fixpoint split (s : string) : list string :=
  match s with
  | EmptyString => []
  | String c s' =>
      if isspace c then split s'
      else match s' with
           | EmptyString => [String c EmptyString]
           | String c' _ =>
               if isspace c' then String c EmptyString :: split s'
               else match split s' with
                    | w :: ws => String c w :: ws
                    | [] => [String c EmptyString]
                    end
           end
  end.

(** [s.count(sub)]: the occurrences of [sub] met scanning left to right,
    each one skipping the characters it covers ([skip] counts those still
    to pass). *)
Fixpoint count_from (sub s : string) (skip : nat) : nat :=
  match s with
  | EmptyString =>
      match skip, sub with
      | O, EmptyString => 1
      | _, _ => 0
      end
  | String _ s' =>
      match skip with
      | S n => count_from sub s' n
      | O => if prefix sub s
             then S (count_from sub s' (String.length sub - 1))
             else count_from sub s' 0
      end
  end.

Definition count (s sub : string) : nat := count_from sub s 0.

(** [len(s)] as a Python integer. *)
Definition len (s : string) : Z := Z.of_nat (String.length s).

End Str.

(** ** Data model *)

(** A LangChain [Document]: the text and its citation metadata. *)
Record Document : Type := {
  page_content : string;
  metadata : list (string * string)
}.

(** The third-party models the retriever calls.  They are not code of the
    repository; the development is parametric in them and uses only what
    their fields state.  An instance stands for one configured
    vectorizer: [indexer.py] builds it with English stop words and 1000
    features, [indexer_with_json.py] with uni- and bigrams, [min_df = 1],
    [max_df = 0.9] and 2000 features; the statements hold for either. *)
Class Libraries : Type := {
  (** a numeric row vector (a sparse TF-IDF row or a dense embedding) *)
  vec : Type;
  (** what [TfidfVectorizer.fit_transform] learns: vocabulary and weights *)
  Fitted : Type;
  (** [vectorizer.fit_transform(texts)] raises [ValueError] on texts it
      cannot draw a vocabulary from (no term at all, or none left after
      the [max_df] and [min_df] pruning the vectorizer is configured
      with); [fit_rejects] tells on which *)
  fit_rejects : list string -> bool;
  (** what [vectorizer.fit_transform(texts)] returns otherwise: a fresh
      fit, and one row per text *)
  fit_transform : list string -> Fitted * list vec;
  fit_transform_rows :
    forall texts, List.length (snd (fit_transform texts)) = List.length texts;
  (** [vectorizer.transform([query])] with a fitted vectorizer *)
  transform : Fitted -> string -> vec;
  (** the Euclidean norm of a row, and [cosine_similarity] of two rows,
      which scikit-learn sets to 0 when a norm is 0 *)
  row_norm : vec -> Q;
  cosine_similarity : vec -> vec -> Q;
  cosine_similarity_zero :
    forall a b, (row_norm a == 0 \/ row_norm b == 0)%Q ->
                (cosine_similarity a b == 0)%Q;
  (** [SentenceTransformer.encode] on one text *)
  encode : string -> vec;
  (** [InMemoryVectorStore.from_documents] over remote embeddings *)
  InMemoryVectorStore : Type;
  from_documents : list Document -> result InMemoryVectorStore
}.

(** ** [LocalVectorStore] ([indexer.py], [indexer_with_json.py]) *)

Module LocalVectorStore.
Section WithLibraries.
Context {L : Libraries}.

(** The object's attributes; [vectorizer] is [None] until it is fitted. *)
Record t : Type := {
  vectorizer : option Fitted;
  documents : list Document;
  embeddings : option (list vec)
}.

(** [__init__] *)
Definition init : t :=
  {| vectorizer := None; documents := []; embeddings := None |}.

(** [add_documents]: the documents are assigned, the vectorizer refitted
    on their texts and the matrix replaced.  This is the store the
    method leaves when the fit returns. *)
Definition add_documents (self : t) (docs : list Document) : t :=
  let texts := map page_content docs in
  let fitted := fit_transform texts in
  {| vectorizer := Some (fst fitted);
     documents := docs;
     embeddings := Some (snd fitted) |}.

(** [add_documents] as the call the indexers make: when the fit raises,
    the exception leaves the method; when it returns, the store is the
    one above.  Both callers ([create_vector_store] of [indexer.py] and
    of [indexer_with_json.py]) call it on a fresh store and drop that
    store when the call raises, so the state a raising call leaves
    behind is not modelled. *)
Definition add_documents_call (self : t) (docs : list Document) : result t :=
  let texts := map page_content docs in
  if fit_rejects texts then Raise ValueError
  else Ok (add_documents self docs).

(** The loop over [top_indices]: a document is appended when its
    similarity is positive. *)
Fixpoint collect (docs : list Document) (similarities : list Q)
    (top_indices : list nat) : result (list Document) :=
  match top_indices with
  | [] => Ok []
  | idx :: rest =>
      if Py.positive (Py.item similarities idx) then
        match nth_error docs idx with
        | Some d => results <- collect docs similarities rest ;; Ok (d :: results)
        | None => Raise IndexError
        end
      else collect docs similarities rest
  end.

(** [similarities.argsort()[-k:][::-1]] *)
Definition top_indices (similarities : list Q) (k : Z) : list nat :=
  rev (Py.slice_from (- k) (Py.argsort similarities)).

(** The array [similarities] of a fitted store for a query: one score
    per row ([[]] while nothing is fitted). *)
Definition similarities (self : t) (query : string) : list Q :=
  match vectorizer self, embeddings self with
  | Some f, Some emb => map (cosine_similarity (transform f query)) emb
  | _, _ => []
  end.

(** [similarity_search] *)
Definition similarity_search (self : t) (query : string) (k : Z)
  : result (list Document) :=
  match embeddings self with
  | None => Ok []
  | Some emb =>
      if (List.length (documents self) =? 0)%nat then Ok []
      else match vectorizer self with
           | None => Raise NotFittedError
           | Some f =>
               let query_vec := transform f query in
               let similarities := map (cosine_similarity query_vec) emb in
               collect (documents self) similarities (top_indices similarities k)
           end
  end.

(** [similarity_search] with the sort left open: [argsort] stands for
    numpy's, of which only [Py.ascending] is known; the rest is the
    method as above. *)
Definition similarity_search_by (argsort : list Q -> list nat)
    (self : t) (query : string) (k : Z) : result (list Document) :=
  match embeddings self with
  | None => Ok []
  | Some emb =>
      if (List.length (documents self) =? 0)%nat then Ok []
      else match vectorizer self with
           | None => Raise NotFittedError
           | Some f =>
               let query_vec := transform f query in
               let similarities := map (cosine_similarity query_vec) emb in
               let top_indices := rev (Py.slice_from (- k) (argsort similarities)) in
               collect (documents self) similarities top_indices
           end
  end.

(** The inner loop of [keyword_search] over the query words. *)
Definition keyword_score (content : string) (query_words : list string) : Z :=
  fold_left
    (fun score word =>
       if (3 <? Str.len word)%Z
       then (score + Z.of_nat (Str.count content word) * Str.len word)%Z
       else score)
    query_words 0%Z.

(** The outer loop: the documents of positive score, with their score. *)
Definition scored_docs (docs : list Document) (query_words : list string)
  : list (Z * Document) :=
  flat_map
    (fun doc =>
       let content := Str.lower (page_content doc) in
       let score := keyword_score content query_words in
       if (0 <? score)%Z then [(score, doc)] else [])
    docs.

(** [keyword_search] ([indexer_with_json.py]) *)
Definition keyword_search (self : t) (query : string) (k : Z) : list Document :=
  match documents self with
  | [] => []
  | _ :: _ =>
      let query_words := Str.split (Str.lower query) in
      let scored := Py.sort_desc fst (scored_docs (documents self) query_words) in
      map snd (Py.slice_to k scored)
  end.

(** [as_retriever(search_kwargs).invoke]: [k] is [search_kwargs['k']],
    3 when absent. *)
Definition as_retriever (self : t) (search_kwargs : option Z) (query : string)
  : result (list Document) :=
  let k := match search_kwargs with Some k => k | None => 3%Z end in
  similarity_search self query k.

End WithLibraries.
End LocalVectorStore.

(** ** [LocalEmbeddingVectorStore] ([indexer_with_local_embeddings.py]) *)

Module LocalEmbeddingVectorStore.
Section WithLibraries.
Context {L : Libraries}.

Record t : Type := {
  documents : list Document;
  embeddings : option (list vec)
}.

(** [__init__] *)
Definition init : t := {| documents := []; embeddings := None |}.

(** [add_documents]: the documents are appended and the new rows stacked
    under the old ones. *)
Definition add_documents (self : t) (docs : list Document) : t :=
  let texts := map page_content docs in
  let new_embeddings := map encode texts in
  {| documents := documents self ++ docs;
     embeddings := match embeddings self with
                   | None => Some new_embeddings
                   | Some old => Some (old ++ new_embeddings)
                   end |}.

(** [[self.documents[i] for i in top_indices]] *)
Fixpoint pick (docs : list Document) (top_indices : list nat)
  : result (list Document) :=
  match top_indices with
  | [] => Ok []
  | i :: rest =>
      match nth_error docs i with
      | Some d => results <- pick docs rest ;; Ok (d :: results)
      | None => Raise IndexError
      end
  end.

(** [cosine_similarity(query_embedding, self.embeddings)[0]]; with [None]
    for the second matrix scikit-learn compares the first with itself. *)
Definition similarities_of (query_embedding : vec) (emb : option (list vec))
  : list Q :=
  match emb with
  | None => [cosine_similarity query_embedding query_embedding]
  | Some rows => map (cosine_similarity query_embedding) rows
  end.

(** [similarity_search] *)
Definition similarity_search (self : t) (query : string) (k : Z)
  : result (list Document) :=
  match documents self with
  | [] => Ok []
  | _ :: _ =>
      let query_embedding := encode query in
      let similarities := similarities_of query_embedding (embeddings self) in
      pick (documents self) (rev (Py.slice_from (- k) (Py.argsort similarities)))
  end.

(** [set(words)] as the list of distinct words. *)
Definition word_set (words : list string) : list string :=
  nodup string_dec words.

(** [len(query_words.intersection(content_words))] *)
Definition overlap (query_words content_words : list string) : Z :=
  Z.of_nat (List.length
    (filter (fun w => existsb (String.eqb w) content_words) query_words)).

(** [keyword_search]: every document is scored, the list sorted, cut at
    [k], and the zero scores dropped last. *)
Definition keyword_search (self : t) (query : string) (k : Z) : list Document :=
  match documents self with
  | [] => []
  | _ :: _ =>
      let query_words := word_set (Str.split (Str.lower query)) in
      let scored_docs :=
        map (fun doc =>
               let content_words :=
                 word_set (Str.split (Str.lower (page_content doc))) in
               (overlap query_words content_words, doc))
            (documents self) in
      let sorted := Py.sort_desc fst scored_docs in
      map snd (filter (fun p => (0 <? fst p)%Z) (Py.slice_to k sorted))
  end.

End WithLibraries.
End LocalEmbeddingVectorStore.

(** ** [create_vector_store] ([indexer.py]) *)

Section CreateVectorStore.
Context {L : Libraries}.

(** What [create_vector_store] hands back: LangChain's in-memory store
    over remote embeddings, or the local TF-IDF store. *)
Inductive VectorStore : Type :=
| Remote (store : InMemoryVectorStore)
| Local (store : LocalVectorStore.t).

(** The [try] branch returns the remote store; any exception of it is
    caught and the local store is built instead.  The handler calls
    [add_documents] unguarded: an exception of the local fit leaves
    [create_vector_store]. *)
Definition create_vector_store (chunks : list Document) : result VectorStore :=
  match from_documents chunks with
  | Ok vector_store => Ok (Remote vector_store)
  | Raise _ =>
      vector_store <-
        LocalVectorStore.add_documents_call LocalVectorStore.init chunks ;;
      Ok (Local vector_store)
  end.

End CreateVectorStore.

(** ** The keyword fallback as the specification words it

    "Tokenize query into lowercase words; for each chunk, score = sum
    over query words of (occurrence count of that word in chunk x word
    length); discard zero-score chunks; sort descending by score, stable
    tie-break by ingestion order; return top k."  These definitions follow
    that sentence and are what the code's [keyword_search] is compared
    with. *)

Module Spec.

(** The sum over the query words of occurrence count times word length. *)
Definition score (content : string) (query_words : list string) : Z :=
  fold_right
    (fun word acc => (Z.of_nat (Str.count content word) * Str.len word + acc)%Z)
    0%Z query_words.

(** Zero-score chunks discarded, the rest sorted descending and stably. *)
Definition ranking {A : Type} (score : A -> Z) (chunks : list A) : list A :=
  Py.sort_desc score (filter (fun c => (0 <? score c)%Z) chunks).

(** The top [k] of the ranking. *)
Definition top {A : Type} (score : A -> Z) (chunks : list A) (k : Z) : list A :=
  firstn (Z.to_nat k) (ranking score chunks).

Definition keywordSearch (chunks : list Document) (query : string) (k : Z)
  : list Document :=
  top (fun c => score (Str.lower (page_content c)) (Str.split (Str.lower query)))
      chunks k.

End Spec.

(** ** Notions the statements use *)

(** The comparison [argsort] sorts by. *)
Definition score_leb (p q : nat * Q) : bool := Qle_bool (snd p) (snd q).

(** Ascending score, and ascending position among equal scores. *)
Definition pair_before (p q : nat * Q) : Prop :=
  (snd p < snd q)%Q \/ ((snd p == snd q)%Q /\ fst p < fst q).

(** The same on the indices of an array of scores. *)
Definition index_before (a : list Q) (i j : nat) : Prop :=
  (Py.item a i < Py.item a j)%Q \/ ((Py.item a i == Py.item a j)%Q /\ i < j).

(** Descending score, and descending position among equal scores. *)
Definition ranked_before (sims : list Q) (i j : nat) : Prop :=
  (Py.item sims j < Py.item sims i)%Q
  \/ ((Py.item sims j == Py.item sims i)%Q /\ j < i).

(** The words [keyword_search] of the TF-IDF store counts. *)
Definition long_word (word : string) : bool := (3 <? Str.len word)%Z.

Section StoreNotions.
Context {L : Libraries}.

(** Rows and documents are aligned, and a store with rows is fitted. *)
Definition aligned (self : LocalVectorStore.t) : Prop :=
  match LocalVectorStore.embeddings self with
  | None => True
  | Some emb =>
      LocalVectorStore.vectorizer self <> None
      /\ List.length emb = List.length (LocalVectorStore.documents self)
  end.

(** The rows a search selects: the top indices of positive similarity. *)
Definition result_indices (self : LocalVectorStore.t) (query : string) (k : Z)
  : list nat :=
  let sims := LocalVectorStore.similarities self query in
  filter (fun i => Py.positive (Py.item sims i))
         (LocalVectorStore.top_indices sims k).

(** One stacked row per document. *)
Definition stacked (self : LocalEmbeddingVectorStore.t) : Prop :=
  match LocalEmbeddingVectorStore.embeddings self with
  | None => LocalEmbeddingVectorStore.documents self = []
  | Some emb =>
      List.length emb = List.length (LocalEmbeddingVectorStore.documents self)
  end.

(** The indices an embedding search returns: the top ones, unfiltered. *)
Definition embedding_indices (self : LocalEmbeddingVectorStore.t)
    (query : string) (k : Z) : list nat :=
  rev (Py.slice_from (- k)
         (Py.argsort (LocalEmbeddingVectorStore.similarities_of (encode query)
            (LocalEmbeddingVectorStore.embeddings self)))).

End StoreNotions.

(** ** [rag.py]: the local retriever and the formatting of chunks *)

Module Rag.

Section WithLibraries.
Context {L : Libraries}.

(** [local_retriever] of [initialize_retriever], and the same two steps
    in [fallback_answer]: the TF-IDF search first, the keyword search
    when it found nothing. *)
Definition local_retriever (vector_store : LocalVectorStore.t)
    (RETRIEVER_K : Z) (query : string) : result (list Document) :=
  results <- LocalVectorStore.similarity_search vector_store query RETRIEVER_K ;;
  match results with
  | [] => Ok (LocalVectorStore.keyword_search vector_store query RETRIEVER_K)
  | _ :: _ => Ok results
  end.

End WithLibraries.

(** [metadata.get(key, default)]; a value is held in its printed form. *)
Definition get (metadata : list (string * string)) (key default : string)
  : string :=
  match find (fun entry => String.eqb (fst entry) key) metadata with
  | Some entry => snd entry
  | None => default
  end.

(** [sep in s] for a one-character [sep]. *)
Fixpoint contains (sep : ascii) (s : string) : bool :=
  match s with
  | EmptyString => false
  | String c s' => Ascii.eqb c sep || contains sep s'
  end.

(** [s.split(sep)] for a one-character [sep]: the pieces between the
    separators, empty ones included; never the empty list. *)
Fixpoint split_on (sep : ascii) (s : string) : list string :=
  match s with
  | EmptyString => [EmptyString]
  | String c s' =>
      if Ascii.eqb c sep then EmptyString :: split_on sep s'
      else match split_on sep s' with
           | piece :: pieces => String c piece :: pieces
           | [] => [String c EmptyString]
           end
  end.

(** [source.split('/')[-1] if '/' in source else source] *)
Definition source_name (source : string) : string :=
  if contains "/" source then last (split_on "/" source) EmptyString
  else source.

Definition newline : string := String (ascii_of_nat 10) EmptyString.

(** [enumerate(chunks, start)] *)
Fixpoint enumerate {A : Type} (start : nat) (l : list A) : list (nat * A) :=
  match l with
  | [] => []
  | x :: l' => (start, x) :: enumerate (S start) l'
  end.

(** The Cyrillic literals of [format_chunks] are parameters: the notice
    for an empty list, and the words for "source" and "page". *)
Section FormatChunks.
Variables (no_information source_word page_word : string).

(** One formatted part: the bracketed citation, a line break, the text. *)
Definition format_part (i : nat) (chunk : Document) : string :=
  let source := get (metadata chunk) "source" "Unknown" in
  let page := get (metadata chunk) "page" "N/A" in
  ("[" ++ source_word ++ " " ++ DecimalString.NilZero.string_of_uint (Nat.to_uint i) ++ ": "
   ++ source_name source ++ ", " ++ page_word ++ " " ++ page ++ "]"
   ++ newline ++ page_content chunk)%string.

Definition format_chunks (chunks : list Document) : string :=
  match chunks with
  | [] => no_information
  | _ :: _ =>
      String.concat (newline ++ newline ++ "---" ++ newline ++ newline)
        (map (fun ic => format_part (fst ic) (snd ic)) (enumerate 1 chunks))
  end.

End FormatChunks.

End Rag.

(** ** Loading and reindexing

    The file system, the PDF and JSON loaders and the text splitter are
    outside the repository; the loading code is parametric in them. *)

Class Loaders : Type := {
  (** [Path(p).exists()] *)
  path_exists : string -> bool;
  (** [list(Path(data_dir).glob("*.pdf"))], as path strings *)
  glob_pdf : string -> list string;
  (** [PyPDFLoader(path).load()] *)
  pdf_load : string -> result (list Document);
  (** [JSONLoader(file_path=path, ...).load()] *)
  json_load : string -> result (list Document);
  (** [text_splitter.split_documents(pages)] *)
  split_pages : list Document -> list Document
}.

(** [indexer.py] *)
Module Indexer.
Section WithLoaders.
Context {L : Libraries} {F : Loaders}.

(** The loop of [load_pdf_documents]: a loader exception leaves the loop
    and the function. *)
Fixpoint load_files (pdf_files : list string) (pages : list Document)
  : result (list Document) :=
  match pdf_files with
  | [] => Ok pages
  | pdf_file :: rest =>
      loaded <- pdf_load pdf_file ;;
      load_files rest (pages ++ loaded)
  end.

Definition load_pdf_documents (data_dir : string) : result (list Document) :=
  if negb (path_exists data_dir) then Ok []
  else load_files (glob_pdf data_dir) [].

Definition split_documents (pages : list Document) : list Document :=
  split_pages pages.

(** [reindex_all]: [None] when nothing is found and when anything raises. *)
Definition reindex_all (DATA_DIR : string) : option VectorStore :=
  match load_pdf_documents DATA_DIR with
  | Raise _ => None
  | Ok pages =>
      match pages with
      | [] => None
      | _ :: _ =>
          let chunks := split_documents pages in
          match chunks with
          | [] => None
          | _ :: _ =>
              match create_vector_store chunks with
              | Ok vector_store => Some vector_store
              | Raise _ => None
              end
          end
      end
  end.

End WithLoaders.
End Indexer.

(** [indexer_with_json.py]; its [load_pdf_documents] and
    [split_documents] are those of [indexer.py] word for word, and are
    taken from [Indexer]. *)
Module IndexerWithJson.
Section WithLoaders.
Context {L : Libraries} {F : Loaders}.

Definition load_json_documents (json_file_path : string)
  : result (list Document) :=
  if negb (path_exists json_file_path) then Ok []
  else json_load json_file_path.

(** [create_vector_store]: the local TF-IDF store, always; an exception
    of the fit leaves the function. *)
Definition create_vector_store (chunks : list Document)
  : result LocalVectorStore.t :=
  LocalVectorStore.add_documents_call LocalVectorStore.init chunks.

(** [reindex_all]: PDF chunks first, then the question-answer documents
    of [DATA_DIR/sberbank_help_documents.json]; [None] when nothing is
    found and when anything raises, the fit included. *)
Definition reindex_all (DATA_DIR : string) : option LocalVectorStore.t :=
  match Indexer.load_pdf_documents DATA_DIR with
  | Raise _ => None
  | Ok pdf_pages =>
      let pdf_chunks :=
        match pdf_pages with
        | [] => []
        | _ :: _ => Indexer.split_documents pdf_pages
        end in
      let json_file := (DATA_DIR ++ "/sberbank_help_documents.json")%string in
      match load_json_documents json_file with
      | Raise _ => None
      | Ok json_chunks =>
          let all_chunks := pdf_chunks ++ json_chunks in
          match all_chunks with
          | [] => None
          | _ :: _ =>
              match create_vector_store all_chunks with
              | Ok vector_store => Some vector_store
              | Raise _ => None
              end
          end
      end
  end.

End WithLoaders.
End IndexerWithJson.

(** [indexer_with_local_embeddings.py] *)
Module IndexerWithLocalEmbeddings.
Section WithLoaders.
Context {L : Libraries} {F : Loaders}.

(** The loop of [load_pdf_documents]: each file is loaded in a [try]; a
    file that raises is logged and the loop goes on. *)
Fixpoint load_files (pdf_files : list string) (pdf_documents : list Document)
  : list Document :=
  match pdf_files with
  | [] => pdf_documents
  | pdf_file :: rest =>
      match pdf_load pdf_file with
      | Ok documents => load_files rest (pdf_documents ++ documents)
      | Raise _ => load_files rest pdf_documents
      end
  end.

Definition load_pdf_documents (data_dir : string) : list Document :=
  load_files (glob_pdf data_dir) [].

End WithLoaders.
End IndexerWithLocalEmbeddings.

(** Concrete chunks for the runs below. *)
Module Sample.

Definition chunk (text page : string) : Document :=
  {| page_content := text; metadata := [("page", page)]%string |}.

Definition card1 : Document := chunk "card" "1".
Definition card2 : Document := chunk "card" "2".
Definition loan : Document := chunk "loan" "3".
Definition blank : Document := chunk "" "4".
Definition cats : Document := chunk "cat cat" "5".

End Sample.

(** ** A stand-in for the libraries

    Bag-of-words counts for the vectorizer and the encoder, a fit that
    raises when the texts hold no word at all, a six-decimal Euclidean
    norm, and a remote provider that is never reachable.  It
    instantiates [Libraries] for the concrete runs below. *)

Module Stub.

Definition words (text : string) : list string := Str.split (Str.lower text).

Definition occurrences (w : string) (ws : list string) : Q :=
  inject_Z (Z.of_nat (List.length (filter (String.eqb w) ws))).

Definition counts (vocabulary : list string) (text : string) : list Q :=
  map (fun w => occurrences w (words text)) vocabulary.

Definition vocabulary_of (texts : list string) : list string :=
  nodup string_dec (flat_map words texts).

Fixpoint dot (a b : list Q) : Q :=
  match a, b with
  | x :: a', y :: b' => (x * y + dot a' b')%Q
  | _, _ => 0%Q
  end.

(** The Euclidean norm to six decimals, rounded down: with
    [dot a a = p / q] it is [isqrt (p * q * 10^12) / (q * 10^6)]. *)
Definition norm (a : list Q) : Q :=
  let s := Qred (dot a a) in
  Qred (Z.sqrt (Qnum s * Z.pos (Qden s) * 10 ^ 12) # (Qden s * 1000000))%Q.

Definition cosine (a b : list Q) : Q :=
  if Qeq_bool (norm a) 0 || Qeq_bool (norm b) 0 then 0%Q
  else Qred (dot a b / (norm a * norm b))%Q.

Lemma cosine_zero (a b : list Q) :
  (norm a == 0 \/ norm b == 0)%Q -> (cosine a b == 0)%Q.
Proof.
  intros H. unfold cosine.
  destruct H as [H | H]; apply Qeq_bool_iff in H; rewrite H;
    rewrite ?orb_true_r; reflexivity.
Qed.

Lemma counts_rows (texts : list string) :
  List.length (map (counts (vocabulary_of texts)) texts) = List.length texts.
Proof. apply length_map. Qed.

#[export] Instance libraries : Libraries := {|
  vec := list Q;
  Fitted := list string;
  fit_rejects texts :=
    match vocabulary_of texts with
    | [] => true
    | _ :: _ => false
    end;
  fit_transform texts :=
    (vocabulary_of texts, map (counts (vocabulary_of texts)) texts);
  fit_transform_rows := counts_rows;
  transform := counts;
  row_norm := norm;
  cosine_similarity := cosine;
  cosine_similarity_zero := cosine_zero;
  encode := counts ["card"; "loan"; "rate"]%string;
  InMemoryVectorStore := unit;
  from_documents := fun _ => Raise (ProviderError "unreachable")
|}.

End Stub.

(** A stand-in for the loaders: a directory ["data"] with two readable
    PDF files of one page each and one that cannot be read, a directory
    ["good"] with the two readable files and a JSON file of one
    question-answer document, and a splitter that keeps pages whole. *)

Module StubFiles.

Definition page_a : Document :=
  {| page_content := "card terms";
     metadata := [("source", "data/a.pdf"); ("page", "0")]%string |}.

Definition page_b : Document :=
  {| page_content := "loan terms";
     metadata := [("source", "data/b.pdf"); ("page", "0")]%string |}.

Definition answer : Document :=
  {| page_content := "how to order a card";
     metadata := [("source", "data/sberbank_help_documents.json")]%string |}.

#[export] Instance loaders : Loaders := {|
  path_exists p :=
    String.eqb p "data" || String.eqb p "good"
    || String.eqb p "good/sberbank_help_documents.json";
  glob_pdf p :=
    if String.eqb p "data"
    then ["data/a.pdf"; "data/broken.pdf"; "data/b.pdf"]%string
    else if String.eqb p "good" then ["data/a.pdf"; "data/b.pdf"]%string
    else [];
  pdf_load p :=
    if String.eqb p "data/a.pdf" then Ok [page_a]
    else if String.eqb p "data/b.pdf" then Ok [page_b]
    else Raise (ProviderError "unreadable");
  json_load p := Ok [answer];
  split_pages pages := pages
|}.

End StubFiles.

(** * Properties *)

(** ** Slices and the stable sort *)

Section SliceFacts.
Context {A : Type}.

Lemma slice_from_last_length (k : Z) (l : list A) :
  (1 <= k)%Z ->
  List.length (Py.slice_from (- k) l) = Nat.min (Z.to_nat k) (List.length l).
Proof.
  intros Hk. unfold Py.slice_from.
  destruct (Z.ltb_spec (- k) 0); [| lia].
  rewrite length_skipn. lia.
Qed.

Lemma slice_from_zero (l : list A) : Py.slice_from (- 0) l = l.
Proof. unfold Py.slice_from. simpl. rewrite Z.min_l by lia. reflexivity. Qed.

Lemma slice_from_incl (start : Z) (l : list A) (x : A) :
  In x (Py.slice_from start l) -> In x l.
Proof.
  unfold Py.slice_from. intros H.
  rewrite <- (firstn_skipn (Z.to_nat
    (if (start <? 0)%Z
     then Z.max (Z.of_nat (List.length l) + start) 0
     else Z.min start (Z.of_nat (List.length l)))) l).
  apply in_or_app. right. exact H.
Qed.

Lemma slice_to_length (stop : Z) (l : list A) :
  (0 <= stop)%Z ->
  List.length (Py.slice_to stop l) = Nat.min (Z.to_nat stop) (List.length l).
Proof.
  intros Hk. unfold Py.slice_to.
  destruct (Z.ltb_spec stop 0); [lia |].
  rewrite length_firstn. lia.
Qed.

Lemma slice_to_firstn (stop : Z) (l : list A) :
  (0 <= stop)%Z -> Py.slice_to stop l = firstn (Z.to_nat stop) l.
Proof.
  intros Hk. unfold Py.slice_to.
  destruct (Z.ltb_spec stop 0); [lia |].
  destruct (Z.min_spec stop (Z.of_nat (List.length l))) as [[Hlt ->] | [Hge ->]].
  - reflexivity.
  - rewrite Nat2Z.id. rewrite firstn_all. symmetry. apply firstn_all2. lia.
Qed.

Lemma StronglySorted_skipn (R : A -> A -> Prop) (n : nat) (l : list A) :
  StronglySorted R l -> StronglySorted R (skipn n l).
Proof.
  revert l. induction n as [| n IH]; intros l H; [exact H |].
  destruct l as [| x l]; [exact H |].
  simpl. apply IH. inversion H; assumption.
Qed.

Lemma StronglySorted_app_one (R : A -> A -> Prop) (l : list A) (x : A) :
  StronglySorted R l -> Forall (fun y => R y x) l ->
  StronglySorted R (l ++ [x]).
Proof.
  induction l as [| y l IH]; intros Hs Hall; simpl.
  - repeat constructor.
  - inversion Hs as [| ? ? Hs' Hy]; subst.
    inversion Hall as [| ? ? Hyx Hall']; subst.
    constructor; [apply IH; assumption |].
    apply Forall_app. split; [assumption | constructor; [assumption | constructor]].
Qed.

Lemma StronglySorted_rev (R : A -> A -> Prop) (l : list A) :
  StronglySorted R l -> StronglySorted (fun x y => R y x) (rev l).
Proof.
  induction 1 as [| x l Hs IH Hx]; simpl; [constructor |].
  apply StronglySorted_app_one; [exact IH |].
  apply Forall_rev. exact Hx.
Qed.

Lemma StronglySorted_filter (R : A -> A -> Prop) (f : A -> bool) (l : list A) :
  StronglySorted R l -> StronglySorted R (filter f l).
Proof.
  induction 1 as [| x l Hs IH Hx]; simpl; [constructor |].
  destruct (f x); [| exact IH].
  constructor; [exact IH |].
  rewrite Forall_forall in *. intros y Hy. apply Hx.
  apply filter_In in Hy. tauto.
Qed.

End SliceFacts.

Section SortFacts.
Context {A : Type}.
Variable leb : A -> A -> bool.

Lemma insert_perm (x : A) (l : list A) : Permutation (Py.insert leb x l) (x :: l).
Proof.
  induction l as [| y l IH]; simpl; [reflexivity |].
  destruct (leb x y); [reflexivity |].
  rewrite IH. apply perm_swap.
Qed.

Lemma sort_perm (l : list A) : Permutation (Py.sort leb l) l.
Proof.
  induction l as [| x l IH]; simpl; [reflexivity |].
  rewrite insert_perm. constructor. exact IH.
Qed.

Lemma sort_length (l : list A) : List.length (Py.sort leb l) = List.length l.
Proof. apply Permutation_length, sort_perm. Qed.

(** Sortedness: with a total and transitive comparison every element is
    below-or-equal to the ones after it. *)
Hypothesis leb_total : forall x y, leb x y = true \/ leb y x = true.
Hypothesis leb_trans : forall x y z, leb x y = true -> leb y z = true -> leb x z = true.

Lemma insert_sorted (x : A) (l : list A) :
  StronglySorted (fun a b => leb a b = true) l ->
  StronglySorted (fun a b => leb a b = true) (Py.insert leb x l).
Proof.
  induction 1 as [| y l Hs IH Hy]; simpl; [repeat constructor |].
  destruct (leb x y) eqn:Hxy.
  - constructor; [constructor; assumption |].
    constructor; [exact Hxy |].
    rewrite Forall_forall in *. intros z Hz. eapply leb_trans; eauto.
  - constructor; [exact IH |].
    rewrite Forall_forall in *. intros z Hz.
    apply (Permutation_in _ (insert_perm x l)) in Hz.
    destruct Hz as [<- | Hz]; [| auto].
    destruct (leb_total x y) as [H | H]; congruence.
Qed.

Lemma sort_sorted (l : list A) :
  StronglySorted (fun a b => leb a b = true) (Py.sort leb l).
Proof.
  induction l as [| x l IH]; simpl; [constructor |].
  apply insert_sorted, IH.
Qed.

(** Stability: the elements of one tie class (a test [P] whose members
    are all below-or-equal to each other) leave the sort in the order
    they entered it. *)
Variable P : A -> bool.
Hypothesis P_ties : forall x y, P x = true -> P y = true -> leb x y = true.

Lemma insert_filter (x : A) (l : list A) :
  filter P (Py.insert leb x l) = filter P (x :: l).
Proof.
  induction l as [| y l IH]; simpl; [reflexivity |].
  destruct (leb x y) eqn:Hxy; [reflexivity |].
  simpl. rewrite IH. simpl.
  destruct (P x) eqn:Hx, (P y) eqn:Hy; try reflexivity.
  rewrite (P_ties x y Hx Hy) in Hxy. discriminate.
Qed.

Lemma sort_stable (l : list A) : filter P (Py.sort leb l) = filter P l.
Proof.
  induction l as [| x l IH]; simpl; [reflexivity |].
  rewrite insert_filter. simpl. rewrite IH. reflexivity.
Qed.

End SortFacts.

(** The sort and a filter that keeps an upper part of the order (whatever
    is in front of a kept element is kept) commute, and so do that filter
    and a cut of the sorted list. *)
Section RankFacts.
Context {A : Type}.
Variable leb : A -> A -> bool.
Variable P : A -> bool.
Hypothesis leb_total : forall x y, leb x y = true \/ leb y x = true.
Hypothesis leb_trans : forall x y z, leb x y = true -> leb y z = true -> leb x z = true.
Hypothesis P_upper : forall x y, leb x y = true -> P y = true -> P x = true.

Lemma filter_none (l : list A) :
  Forall (fun y => P y = false) l -> filter P l = [].
Proof.
  induction 1 as [| y l Hy Hl IH]; simpl; [reflexivity |].
  rewrite Hy. exact IH.
Qed.

Lemma sorted_below_dropped (x : A) (l : list A) :
  P x = false -> Forall (fun y => leb x y = true) l ->
  Forall (fun y => P y = false) l.
Proof.
  intros Hx Hall. rewrite Forall_forall in *. intros y Hy.
  destruct (P y) eqn:E; [| reflexivity].
  rewrite (P_upper x y (Hall y Hy) E) in Hx. discriminate.
Qed.

Lemma insert_dropped (x : A) (l : list A) :
  P x = false -> filter P (Py.insert leb x l) = filter P l.
Proof.
  intros Hx. induction l as [| y l IH]; simpl; [rewrite Hx; reflexivity |].
  destruct (leb x y); simpl; [rewrite Hx; reflexivity |].
  rewrite IH. reflexivity.
Qed.

Lemma insert_kept (x : A) (l : list A) :
  P x = true -> StronglySorted (fun a b => leb a b = true) l ->
  filter P (Py.insert leb x l) = Py.insert leb x (filter P l).
Proof.
  intros Hx. induction 1 as [| y l Hs IH Hy]; simpl; [rewrite Hx; reflexivity |].
  destruct (leb x y) eqn:Hxy; simpl.
  - rewrite Hx. destruct (P y) eqn:HPy; simpl.
    + rewrite Hxy. reflexivity.
    + rewrite (filter_none l (sorted_below_dropped y l HPy Hy)). reflexivity.
  - assert (HPy : P y = true).
    { destruct (leb_total x y) as [H | H]; [congruence |].
      exact (P_upper y x H Hx). }
    rewrite HPy, IH. simpl. rewrite Hxy. reflexivity.
Qed.

Lemma sort_filter (l : list A) :
  filter P (Py.sort leb l) = Py.sort leb (filter P l).
Proof.
  induction l as [| x l IH]; simpl; [reflexivity |].
  destruct (P x) eqn:Hx; simpl.
  - rewrite insert_kept, IH;
      [reflexivity | exact Hx | apply sort_sorted; assumption].
  - rewrite insert_dropped, IH by exact Hx. reflexivity.
Qed.

Lemma firstn_filter_sorted (n : nat) (l : list A) :
  StronglySorted (fun a b => leb a b = true) l ->
  filter P (firstn n l) = firstn n (filter P l).
Proof.
  intros Hs. revert n. induction Hs as [| x l Hs IH Hx]; intros n.
  - rewrite !firstn_nil. reflexivity.
  - destruct n as [| n]; [reflexivity |]. simpl.
    destruct (P x) eqn:HPx; simpl; [rewrite IH; reflexivity |].
    pose proof (sorted_below_dropped x l HPx Hx) as Hnone.
    rewrite (filter_none l Hnone). simpl.
    apply filter_none. rewrite Forall_forall in *. intros y Hy.
    apply Hnone. rewrite <- (firstn_skipn n l). apply in_or_app. left. exact Hy.
Qed.

End RankFacts.

Section SortMapFacts.
Context {A B : Type}.

Lemma sort_ext (leb leb' : A -> A -> bool) (l : list A) :
  (forall x y, leb x y = leb' x y) -> Py.sort leb l = Py.sort leb' l.
Proof.
  intros Hext. induction l as [| x l IH]; simpl; [reflexivity |].
  rewrite IH. generalize (Py.sort leb' l) as s.
  induction s as [| y s IHs]; simpl; [reflexivity |].
  rewrite Hext, IHs. reflexivity.
Qed.

Lemma sort_map (g : A -> B) (leb : A -> A -> bool) (leb' : B -> B -> bool)
    (l : list A) :
  (forall x y, leb' (g x) (g y) = leb x y) ->
  Py.sort leb' (map g l) = map g (Py.sort leb l).
Proof.
  intros Hg. induction l as [| x l IH]; simpl; [reflexivity |].
  rewrite IH. generalize (Py.sort leb l) as s.
  induction s as [| y s IHs]; simpl; [reflexivity |].
  rewrite Hg. destruct (leb x y); simpl; [reflexivity |].
  rewrite IHs. reflexivity.
Qed.

Lemma filter_map_swap (g : A -> B) (p : B -> bool) (l : list A) :
  filter p (map g l) = map g (filter (fun x => p (g x)) l).
Proof.
  induction l as [| x l IH]; simpl; [reflexivity |].
  destruct (p (g x)); simpl; rewrite IH; reflexivity.
Qed.

End SortMapFacts.

(** ** [argsort] *)

Section ArgsortFacts.

Lemma pair_before_le (p q : nat * Q) : pair_before p q -> (snd p <= snd q)%Q.
Proof.
  intros [H | [H _]]; [apply Qlt_le_weak, H | rewrite H; apply Qle_refl].
Qed.

Lemma insert_pair_before (x : nat * Q) (s : list (nat * Q)) :
  StronglySorted pair_before s ->
  Forall (fun y => fst x < fst y) s ->
  StronglySorted pair_before (Py.insert score_leb x s).
Proof.
  induction 1 as [| y s Hs IH Hy]; intros Hpos; simpl; [repeat constructor |].
  inversion Hpos as [| ? ? Hxy Hpos']; subst.
  unfold score_leb at 1. destruct (Qle_bool (snd x) (snd y)) eqn:Hle.
  - apply Qle_bool_iff in Hle.
    assert (Hfirst : pair_before x y).
    { destruct (Qle_lt_or_eq _ _ Hle) as [Hlt | Heq];
        [left; exact Hlt | right; split; assumption]. }
    constructor; [constructor; assumption |].
    constructor; [exact Hfirst |].
    rewrite Forall_forall in *. intros z Hz.
    assert (Hyz : (snd y <= snd z)%Q) by (apply pair_before_le, Hy, Hz).
    assert (Hxz : (snd x <= snd z)%Q) by (eapply Qle_trans; eassumption).
    destruct (Qle_lt_or_eq _ _ Hxz) as [Hlt | Heq];
      [left; exact Hlt | right; split; [exact Heq | apply Hpos', Hz]].
  - constructor; [apply IH; exact Hpos' |].
    rewrite Forall_forall in *. intros z Hz.
    apply (Permutation_in _ (insert_perm score_leb x s)) in Hz.
    destruct Hz as [<- | Hz]; [| apply Hy, Hz].
    left. apply Qnot_le_lt. intros Hc.
    apply Qle_bool_iff in Hc. congruence.
Qed.

Lemma sort_pair_before (l : list (nat * Q)) :
  StronglySorted (fun p q => fst p < fst q) l ->
  StronglySorted pair_before (Py.sort score_leb l).
Proof.
  induction 1 as [| x l Hs IH Hx]; simpl; [constructor |].
  apply insert_pair_before; [exact IH |].
  rewrite Forall_forall in *. intros y Hy. apply Hx.
  apply (Permutation_in _ (sort_perm score_leb l)), Hy.
Qed.

Lemma combine_seq_sorted (a : list Q) (s : nat) :
  StronglySorted (fun p q : nat * Q => fst p < fst q)
                 (combine (seq s (List.length a)) a).
Proof.
  revert s. induction a as [| x a IH]; intros s; simpl; [constructor |].
  constructor; [apply IH |].
  rewrite Forall_forall. intros [i y] Hin. simpl.
  apply in_combine_l in Hin. apply in_seq in Hin. lia.
Qed.

Lemma combine_seq_item (a : list Q) (s i : nat) (x : Q) :
  In (i, x) (combine (seq s (List.length a)) a) -> s <= i /\ nth (i - s) a 0%Q = x.
Proof.
  revert s. induction a as [| y a IH]; intros s; simpl; [tauto |].
  intros [Heq | Hin].
  - inversion Heq; subst. rewrite Nat.sub_diag. split; [lia | reflexivity].
  - apply IH in Hin. destruct Hin as [Hle Hnth]. split; [lia |].
    replace (i - s) with (S (i - S s)) by lia. exact Hnth.
Qed.

Lemma map_fst_before (a : list Q) (l : list (nat * Q)) :
  Forall (fun p => snd p = Py.item a (fst p)) l ->
  StronglySorted pair_before l ->
  StronglySorted (index_before a) (map fst l).
Proof.
  intros Hitem Hs. induction Hs as [| p l Hs IH Hp]; simpl; [constructor |].
  inversion Hitem as [| ? ? Hp_item Hl_item]; subst.
  constructor; [apply IH; exact Hl_item |].
  rewrite Forall_forall in *. intros j Hj.
  apply in_map_iff in Hj. destruct Hj as [q [<- Hq]].
  specialize (Hp q Hq). specialize (Hl_item q Hq).
  unfold index_before, pair_before in *.
  rewrite <- Hp_item, <- Hl_item. exact Hp.
Qed.

Lemma combine_seq_indices (a : list Q) (s : nat) :
  map fst (combine (seq s (List.length a)) a) = seq s (List.length a).
Proof.
  revert s. induction a as [| x a IH]; intros s; simpl; [reflexivity |].
  f_equal. apply IH.
Qed.

Lemma argsort_perm (a : list Q) :
  Permutation (Py.argsort a) (seq 0 (List.length a)).
Proof.
  unfold Py.argsort.
  rewrite (Permutation_map fst (sort_perm _ _)).
  rewrite combine_seq_indices. reflexivity.
Qed.

Lemma argsort_length (a : list Q) : List.length (Py.argsort a) = List.length a.
Proof. rewrite (Permutation_length (argsort_perm a)). apply length_seq. Qed.

Lemma argsort_bound (a : list Q) (i : nat) :
  In i (Py.argsort a) -> i < List.length a.
Proof.
  intros H. apply (Permutation_in _ (argsort_perm a)) in H.
  apply in_seq in H. lia.
Qed.

(** The indices come out by ascending score, ties by ascending index. *)
Lemma argsort_sorted (a : list Q) :
  StronglySorted (index_before a) (Py.argsort a).
Proof.
  unfold Py.argsort. apply map_fst_before.
  - rewrite Forall_forall. intros [i x] Hin. simpl.
    apply (Permutation_in _ (sort_perm _ _)) in Hin.
    apply combine_seq_item in Hin. destruct Hin as [_ Hnth].
    rewrite Nat.sub_0_r in Hnth. unfold Py.item. congruence.
  - apply sort_pair_before, combine_seq_sorted.
Qed.

End ArgsortFacts.

(** ** [LocalVectorStore]: invariant and the shape of a search result *)

Section LocalVectorStoreFacts.
Context {L : Libraries}.
Import LocalVectorStore.

Lemma positive_iff (x : Q) : Py.positive x = true <-> (0 < x)%Q.
Proof.
  unfold Py.positive. rewrite negb_true_iff. split; intros H.
  - apply Qnot_le_lt. intros Hc. apply Qle_bool_iff in Hc. congruence.
  - destruct (Qle_bool x 0) eqn:E; [| reflexivity].
    apply Qle_bool_iff in E. exfalso. exact (Qlt_not_le _ _ H E).
Qed.

Lemma init_aligned : aligned init.
Proof. exact I. Qed.

Lemma add_documents_aligned (self : t) (docs : list Document) :
  aligned (add_documents self docs).
Proof.
  unfold aligned, add_documents. simpl. split; [discriminate |].
  rewrite fit_transform_rows. apply length_map.
Qed.

Lemma similarities_length (self : t) (query : string) :
  aligned self ->
  List.length (similarities self query) <= List.length (documents self).
Proof.
  unfold aligned, similarities.
  destruct (vectorizer self), (embeddings self); simpl; try lia.
  intros [_ H]. rewrite length_map. lia.
Qed.

Lemma top_indices_bound (sims : list Q) (k : Z) (i : nat) :
  In i (top_indices sims k) -> i < List.length sims.
Proof.
  unfold top_indices. intros H. apply in_rev in H.
  apply slice_from_incl in H. apply argsort_bound, H.
Qed.

Lemma top_indices_nil (k : Z) : top_indices [] k = [].
Proof.
  destruct (top_indices [] k) as [| i l] eqn:E; [reflexivity |].
  assert (H : In i (top_indices [] k)) by (rewrite E; left; reflexivity).
  apply top_indices_bound in H. simpl in H. lia.
Qed.

Lemma top_indices_length (sims : list Q) (k : Z) :
  (1 <= k)%Z ->
  List.length (top_indices sims k) = Nat.min (Z.to_nat k) (List.length sims).
Proof.
  intros Hk. unfold top_indices.
  rewrite length_rev, slice_from_last_length by exact Hk.
  rewrite argsort_length. reflexivity.
Qed.

Lemma top_indices_ranked (sims : list Q) (k : Z) :
  StronglySorted (ranked_before sims) (top_indices sims k).
Proof.
  unfold top_indices, Py.slice_from.
  apply (StronglySorted_rev (index_before sims)).
  apply StronglySorted_skipn, argsort_sorted.
Qed.

Lemma top_indices_zero (sims : list Q) :
  top_indices sims 0 = rev (Py.argsort sims).
Proof. unfold top_indices. rewrite slice_from_zero. reflexivity. Qed.

(** The loop returns the documents at the positive indices, in order. *)
Lemma collect_spec (docs : list Document) (sims : list Q) (idxs : list nat) :
  (forall i, In i idxs -> i < List.length docs) ->
  exists r,
    collect docs sims idxs = Ok r
    /\ Forall2 (fun i d => nth_error docs i = Some d)
               (filter (fun i => Py.positive (Py.item sims i)) idxs) r.
Proof.
  induction idxs as [| i idxs IH]; intros Hb; simpl.
  - exists []. split; [reflexivity | constructor].
  - destruct IH as [r [Hr Hall]]; [intros j Hj; apply Hb; right; exact Hj |].
    destruct (Py.positive (Py.item sims i)).
    + destruct (nth_error docs i) as [d |] eqn:Hd.
      * exists (d :: r). rewrite Hr. simpl. split; [reflexivity |].
        constructor; assumption.
      * apply nth_error_None in Hd.
        specialize (Hb i (or_introl eq_refl)). lia.
    + exists r. split; assumption.
Qed.

(** Without a positive score the loop never reads a document. *)
Lemma collect_none_positive (docs : list Document) (sims : list Q) (idxs : list nat) :
  (forall i, In i idxs -> Py.positive (Py.item sims i) = false) ->
  collect docs sims idxs = Ok [].
Proof.
  induction idxs as [| i idxs IH]; intros Hz; simpl; [reflexivity |].
  rewrite (Hz i (or_introl eq_refl)). apply IH.
  intros j Hj. apply Hz. right. exact Hj.
Qed.

(** On an aligned store a search returns, for every [k], the documents of
    [result_indices] in that order. *)
Lemma similarity_search_spec (self : t) (query : string) (k : Z) :
  aligned self ->
  exists r,
    similarity_search self query k = Ok r
    /\ Forall2 (fun i d => nth_error (documents self) i = Some d)
               (result_indices self query k) r.
Proof.
  intros Hal. unfold similarity_search, result_indices, similarities.
  unfold aligned in Hal.
  destruct (embeddings self) as [emb |] eqn:Hemb.
  - destruct Hal as [Hfit Hlen].
    destruct (vectorizer self) as [f |] eqn:Hvec; [| congruence].
    destruct (Nat.eqb_spec (List.length (documents self)) 0) as [Hz | Hnz].
    + exists []. split; [reflexivity |].
      destruct emb; [| simpl in Hlen; lia].
      simpl. rewrite top_indices_nil. constructor.
    + apply collect_spec. intros i Hi.
      apply top_indices_bound in Hi. rewrite length_map in Hi. lia.
  - exists []. split; [reflexivity |].
    destruct (vectorizer self); rewrite top_indices_nil; constructor.
Qed.

Lemma Forall2_with_left {A B : Type} (R : A -> B -> Prop) (P : A -> Prop)
    (l : list A) (r : list B) :
  Forall2 R l r -> Forall P l -> Forall2 (fun a b => R a b /\ P a) l r.
Proof.
  induction 1 as [| a b l r Hab Hrest IH]; intros Hall; [constructor |].
  inversion Hall as [| ? ? Ha Hall']; subst.
  constructor; [split; assumption | apply IH; exact Hall'].
Qed.

Lemma Forall2_lookup_In {A : Type} (l : list A) (idxs : list nat) (r : list A) :
  Forall2 (fun i d => nth_error l i = Some d) idxs r ->
  forall d, In d r -> In d l.
Proof.
  induction 1 as [| i d' idxs r Hid Hrest IH]; intros d Hd; [contradiction |].
  destruct Hd as [<- | Hd]; [eapply nth_error_In; exact Hid | exact (IH d Hd)].
Qed.

Lemma Forall2_same_length {A B : Type} (R : A -> B -> Prop) (l : list A) (r : list B) :
  Forall2 R l r -> List.length r = List.length l.
Proof. induction 1; simpl; congruence. Qed.

Lemma result_indices_length (self : t) (query : string) (k : Z) :
  (1 <= k)%Z -> aligned self ->
  List.length (result_indices self query k)
  <= Nat.min (Z.to_nat k) (List.length (documents self)).
Proof.
  intros Hk Hal. unfold result_indices.
  etransitivity; [apply filter_length_le |].
  rewrite top_indices_length by exact Hk.
  pose proof (similarities_length self query Hal). lia.
Qed.

Lemma Forall2_In_left {A B : Type} (R : A -> B -> Prop) (l : list A) (r : list B) :
  Forall2 R l r -> forall a, In a l -> exists b, In b r /\ R a b.
Proof.
  induction 1 as [| a' b' l r Hab Hrest IH]; intros a Ha; [contradiction |].
  destruct Ha as [<- | Ha].
  - exists b'. split; [left; reflexivity | exact Hab].
  - destruct (IH a Ha) as [b [Hb HR]]. exists b. split; [right; exact Hb | exact HR].
Qed.

Lemma scored_docs_length (docs : list Document) (query_words : list string) :
  List.length (scored_docs docs query_words) <= List.length docs.
Proof.
  induction docs as [| d docs IH]; simpl; [lia |].
  rewrite length_app.
  destruct (0 <? keyword_score (Str.lower (page_content d)) query_words)%Z;
    simpl; lia.
Qed.

Lemma keyword_search_length (self : t) (query : string) (k : Z) :
  (0 <= k)%Z ->
  List.length (keyword_search self query k)
  <= Nat.min (Z.to_nat k) (List.length (documents self)).
Proof.
  intros Hk. unfold keyword_search.
  destruct (documents self) as [| d docs]; [simpl; lia |].
  rewrite length_map, slice_to_length by exact Hk.
  unfold Py.sort_desc. rewrite sort_length.
  pose proof (scored_docs_length (d :: docs) (Str.split (Str.lower query))).
  lia.
Qed.

(** Scores that are all zero select nothing, whatever the rows. *)
Lemma collect_all_zero (docs : list Document) (sims : list Q) (idxs : list nat) :
  Forall (fun x => (x == 0)%Q) sims -> collect docs sims idxs = Ok [].
Proof.
  intros Hz. apply collect_none_positive. intros i _.
  unfold Py.positive, Py.item. apply negb_false_iff, Qle_bool_iff.
  destruct (nth_in_or_default i sims 0%Q) as [Hin | ->]; [| apply Qle_refl].
  rewrite Forall_forall in Hz. rewrite (Hz _ Hin). apply Qle_refl.
Qed.

End LocalVectorStoreFacts.

(** ** [LocalEmbeddingVectorStore]: invariant and the shape of a search result *)

Section LocalEmbeddingVectorStoreFacts.
Context {L : Libraries}.
Import LocalEmbeddingVectorStore.

Lemma init_stacked : stacked init.
Proof. reflexivity. Qed.

Lemma add_documents_stacked (self : t) (docs : list Document) :
  stacked self -> stacked (add_documents self docs).
Proof.
  unfold stacked, add_documents. simpl.
  destruct (embeddings self) as [old |]; intros H.
  - rewrite !length_app, !length_map. lia.
  - rewrite H. simpl. rewrite !length_map. reflexivity.
Qed.

Lemma pick_spec (docs : list Document) (idxs : list nat) :
  (forall i, In i idxs -> i < List.length docs) ->
  exists r, pick docs idxs = Ok r
            /\ Forall2 (fun i d => nth_error docs i = Some d) idxs r.
Proof.
  induction idxs as [| i idxs IH]; intros Hb; simpl.
  - exists []. split; [reflexivity | constructor].
  - destruct IH as [r [Hr Hall]]; [intros j Hj; apply Hb; right; exact Hj |].
    destruct (nth_error docs i) as [d |] eqn:Hd.
    + exists (d :: r). rewrite Hr. simpl. split; [reflexivity |].
      constructor; assumption.
    + apply nth_error_None in Hd.
      specialize (Hb i (or_introl eq_refl)). lia.
Qed.

Lemma embedding_search_spec (self : t) (query : string) (k : Z) :
  stacked self ->
  exists r,
    similarity_search self query k = Ok r
    /\ (documents self <> [] ->
        Forall2 (fun i d => nth_error (documents self) i = Some d)
                (embedding_indices self query k) r)
    /\ (documents self = [] -> r = []).
Proof.
  intros Hst. unfold similarity_search, embedding_indices.
  destruct (documents self) as [| d0 docs] eqn:Hdocs.
  - exists []. repeat split; congruence.
  - destruct (pick_spec (d0 :: docs)
      (rev (Py.slice_from (- k)
         (Py.argsort (similarities_of (encode query) (embeddings self))))))
      as [r [Hr Hall]].
    + intros i Hi. apply in_rev, slice_from_incl, argsort_bound in Hi.
      unfold stacked in Hst. rewrite Hdocs in Hst.
      destruct (embeddings self) as [emb |]; [| discriminate].
      simpl in Hi. rewrite length_map in Hi. lia.
    + exists r. repeat split; [exact Hr | intros _; exact Hall | discriminate].
Qed.

Lemma embedding_search_length (self : t) (query : string) (k : Z) (r : list Document) :
  stacked self -> (1 <= k)%Z ->
  similarity_search self query k = Ok r ->
  List.length r = Nat.min (Z.to_nat k) (List.length (documents self)).
Proof.
  intros Hst Hk Hr.
  destruct (embedding_search_spec self query k Hst) as [r' [Hr' [Hne He]]].
  rewrite Hr in Hr'. inversion Hr'; subst r'.
  destruct (documents self) as [| d0 docs] eqn:Hdocs.
  - rewrite He by reflexivity. simpl. lia.
  - rewrite (Forall2_same_length _ _ _ (Hne ltac:(discriminate))).
    unfold embedding_indices.
    rewrite length_rev, slice_from_last_length, argsort_length by exact Hk.
    unfold stacked in Hst. rewrite Hdocs in Hst.
    destruct (embeddings self) as [emb |]; [| discriminate].
    simpl. rewrite length_map, Hst. reflexivity.
Qed.

End LocalEmbeddingVectorStoreFacts.

(** ** The keyword searches against [Spec.top] *)

Section KeywordFacts.
Context {L : Libraries}.

Lemma keyword_score_from (content : string) (query_words : list string) (acc : Z) :
  fold_left
    (fun score word =>
       if (3 <? Str.len word)%Z
       then (score + Z.of_nat (Str.count content word) * Str.len word)%Z
       else score)
    query_words acc
  = (acc + Spec.score content (filter long_word query_words))%Z.
Proof.
  revert acc. induction query_words as [| w ws IH]; intros acc; simpl; [lia |].
  rewrite IH. unfold long_word at 2.
  destruct (3 <? Str.len w)%Z; simpl; lia.
Qed.

Lemma keyword_score_long_words (content : string) (query_words : list string) :
  LocalVectorStore.keyword_score content query_words
  = Spec.score content (filter long_word query_words).
Proof. unfold LocalVectorStore.keyword_score. rewrite keyword_score_from. lia. Qed.

Lemma scored_docs_map (docs : list Document) (query_words : list string) :
  LocalVectorStore.scored_docs docs query_words
  = map (fun d =>
           (LocalVectorStore.keyword_score (Str.lower (page_content d)) query_words, d))
        (filter (fun d =>
                   (0 <? LocalVectorStore.keyword_score
                           (Str.lower (page_content d)) query_words)%Z)
                docs).
Proof.
  induction docs as [| d docs IH]; simpl; [reflexivity |].
  rewrite IH.
  destruct (0 <? LocalVectorStore.keyword_score
                   (Str.lower (page_content d)) query_words)%Z;
    reflexivity.
Qed.

Lemma desc_total {A : Type} (key : A -> Z) (x y : A) :
  (key y <=? key x)%Z = true \/ (key x <=? key y)%Z = true.
Proof. rewrite !Z.leb_le. lia. Qed.

Lemma desc_trans {A : Type} (key : A -> Z) (x y z : A) :
  (key y <=? key x)%Z = true -> (key z <=? key y)%Z = true ->
  (key z <=? key x)%Z = true.
Proof. rewrite !Z.leb_le. lia. Qed.

Lemma sort_desc_pairs {A : Type} (key : A -> Z) (l : list A) :
  Py.sort_desc fst (map (fun c => (key c, c)) l)
  = map (fun c => (key c, c)) (Py.sort_desc key l).
Proof. unfold Py.sort_desc. apply sort_map. reflexivity. Qed.

Lemma map_snd_pairs {A : Type} (key : A -> Z) (l : list A) :
  map snd (map (fun c => (key c, c)) l) = l.
Proof. rewrite map_map. simpl. apply map_id. Qed.

Lemma top_ext {A : Type} (s1 s2 : A -> Z) (chunks : list A) (k : Z) :
  (forall c, s1 c = s2 c) -> Spec.top s1 chunks k = Spec.top s2 chunks k.
Proof.
  intros Hext. unfold Spec.top, Spec.ranking, Py.sort_desc. f_equal.
  rewrite (filter_ext _ (fun c => (0 <? s2 c)%Z)) by (intros c; rewrite Hext; reflexivity).
  apply sort_ext. intros x y. rewrite !Hext. reflexivity.
Qed.

Lemma top_nil {A : Type} (score : A -> Z) (k : Z) : Spec.top score [] k = [].
Proof. unfold Spec.top. simpl. apply firstn_nil. Qed.

(** Cutting the sorted list and then dropping the zero scores is cutting
    the ranking. *)
Lemma cut_then_filter {A : Type} (score : A -> Z) (chunks : list A) (n : nat) :
  filter (fun c => (0 <? score c)%Z) (firstn n (Py.sort_desc score chunks))
  = firstn n (Spec.ranking score chunks).
Proof.
  unfold Spec.ranking, Py.sort_desc.
  rewrite <- (sort_filter (fun x y => (score y <=? score x)%Z)
                          (fun c => (0 <? score c)%Z)
                          (fun x y => desc_total score x y)
                          (fun x y z => desc_trans score x y z)).
  - apply (firstn_filter_sorted (fun x y => (score y <=? score x)%Z)).
    + intros x y Hxy Hy. apply Z.leb_le in Hxy. apply Z.ltb_lt in Hy.
      apply Z.ltb_lt. lia.
    + apply sort_sorted;
        [intros x y; apply desc_total | intros x y z; apply desc_trans].
  - intros x y Hxy Hy. apply Z.leb_le in Hxy. apply Z.ltb_lt in Hy.
    apply Z.ltb_lt. lia.
Qed.

Lemma StronglySorted_weaken {A : Type} (R R' : A -> A -> Prop) (l : list A) :
  (forall a b, R a b -> R' a b) -> StronglySorted R l -> StronglySorted R' l.
Proof.
  intros Himp. induction 1 as [| x l Hs IH Hx]; constructor; [exact IH |].
  rewrite Forall_forall in *. intros y Hy. apply Himp, Hx, Hy.
Qed.

(** What [Spec.ranking] is: the chunks of positive score, by descending
    score, the chunks of one score in their ingestion order. *)
Lemma ranking_characterised {A : Type} (score : A -> Z) (chunks : list A) :
  Permutation (Spec.ranking score chunks)
              (filter (fun c => (0 <? score c)%Z) chunks)
  /\ StronglySorted (fun a b => (score b <= score a)%Z) (Spec.ranking score chunks)
  /\ forall v : Z,
       filter (fun c => (score c =? v)%Z) (Spec.ranking score chunks)
       = filter (fun c => (score c =? v)%Z)
                (filter (fun c => (0 <? score c)%Z) chunks).
Proof.
  unfold Spec.ranking, Py.sort_desc. split; [apply sort_perm | split].
  - apply (StronglySorted_weaken (fun a b => (score b <=? score a)%Z = true)).
    + intros a b H. apply Z.leb_le, H.
    + apply sort_sorted;
        [intros x y; apply desc_total | intros x y z; apply desc_trans].
  - intros v. apply sort_stable.
    intros x y Hx Hy. apply Z.eqb_eq in Hx, Hy. apply Z.leb_le. lia.
Qed.

End KeywordFacts.

(** * The claims *)

Section Claims.
Import Stub.

(** C1 (as amended).  The TF-IDF store's [similarity_search] returns only
    chunks whose similarity to the query is positive, each taken at the
    row it was ranked at, so the result can be shorter than [k] and is
    never padded.  The embedding store's [similarity_search] has no such
    filter: for [k >= 1] it returns exactly [min k n] chunks, whatever
    their similarity. *)
Theorem similarity_search_positive_filter {L : Libraries} :
  (forall (self : LocalVectorStore.t) (query : string) (k : Z),
      aligned self ->
      exists r,
        LocalVectorStore.similarity_search self query k = Ok r
        /\ Forall2
             (fun i d =>
                nth_error (LocalVectorStore.documents self) i = Some d
                /\ (0 < Py.item (LocalVectorStore.similarities self query) i)%Q)
             (result_indices self query k) r)
  /\ (forall (self : LocalEmbeddingVectorStore.t) (query : string) (k : Z),
         stacked self -> (1 <= k)%Z ->
         exists r,
           LocalEmbeddingVectorStore.similarity_search self query k = Ok r
           /\ List.length r
              = Nat.min (Z.to_nat k)
                        (List.length (LocalEmbeddingVectorStore.documents self))).
Proof.
  split.
  - intros self query k Hal.
    destruct (similarity_search_spec self query k Hal) as [r [Hr Hall]].
    exists r. split; [exact Hr |].
    assert (Hpos : Forall
      (fun i => (0 < Py.item (LocalVectorStore.similarities self query) i)%Q)
      (result_indices self query k)).
    { rewrite Forall_forall. intros i Hi. unfold result_indices in Hi.
      apply filter_In in Hi. apply positive_iff, Hi. }
    apply Forall2_with_left; assumption.
  - intros self query k Hst Hk.
    destruct (embedding_search_spec self query k Hst) as [r [Hr _]].
    exists r. split; [exact Hr |].
    eapply embedding_search_length; eassumption.
Qed.

(** Both halves of C1 run on the stand-in libraries: the TF-IDF store
    keeps the two "card" chunks for the query "card", the embedding store
    returns its single chunk for [k = 3]. *)
Lemma similarity_search_positive_filter_witness :
  (aligned (LocalVectorStore.add_documents LocalVectorStore.init
              [Sample.card1; Sample.loan; Sample.card2])
   /\ exists r,
       LocalVectorStore.similarity_search
         (LocalVectorStore.add_documents LocalVectorStore.init
            [Sample.card1; Sample.loan; Sample.card2]) "card" 3 = Ok r
       /\ Forall2
            (fun i d =>
               nth_error [Sample.card1; Sample.loan; Sample.card2] i = Some d
               /\ (0 < Py.item [1; 0; 1]%Q i)%Q)
            [2; 0] r)
  /\ (stacked (LocalEmbeddingVectorStore.add_documents
                 LocalEmbeddingVectorStore.init [Sample.loan])
      /\ (1 <= 3)%Z
      /\ exists r,
          LocalEmbeddingVectorStore.similarity_search
            (LocalEmbeddingVectorStore.add_documents
               LocalEmbeddingVectorStore.init [Sample.loan]) "card" 3 = Ok r
          /\ List.length r = 1).
Proof.
  split.
  - split; [apply add_documents_aligned |].
    exact (proj1 (@similarity_search_positive_filter Stub.libraries)
             (LocalVectorStore.add_documents LocalVectorStore.init
                [Sample.card1; Sample.loan; Sample.card2])
             "card"%string 3%Z (add_documents_aligned _ _)).
  - split; [apply add_documents_stacked, init_stacked |].
    split; [lia |].
    exact (proj2 (@similarity_search_positive_filter Stub.libraries)
             (LocalEmbeddingVectorStore.add_documents
                LocalEmbeddingVectorStore.init [Sample.loan])
             "card"%string 3%Z
             (add_documents_stacked _ _ init_stacked) ltac:(lia)).
Defined.

(** C1 as stated fails on the embedding store: asked for "card", it
    returns the "loan" chunk although that chunk's similarity to the
    query is 0. *)
Lemma embedding_search_returns_zero_similarity :
  let store := LocalEmbeddingVectorStore.add_documents
                 LocalEmbeddingVectorStore.init [Sample.loan] in
  LocalEmbeddingVectorStore.similarity_search store "card" 3 = Ok [Sample.loan]
  /\ (cosine_similarity (encode "card") (encode (page_content Sample.loan)) <= 0)%Q.
Proof. split; [reflexivity | vm_compute; discriminate]. Qed.

(** C3 (as amended).  On the TF-IDF store indexing replaces: after
    [add_documents] on [c1] and then on [c2] the store holds exactly
    [c2], the vectorizer and the rows are those of a fit on the texts of
    [c2] alone, and every search answers with chunks of [c2] only.  On
    the embedding store indexing adds: the chunks of [c2] are appended to
    those already held and their rows stacked under the earlier rows. *)
Theorem add_documents_replaces_or_appends {L : Libraries} :
  (forall (before : LocalVectorStore.t) (c1 c2 : list Document),
      let self :=
        LocalVectorStore.add_documents
          (LocalVectorStore.add_documents before c1) c2 in
      LocalVectorStore.documents self = c2
      /\ LocalVectorStore.vectorizer self
         = Some (fst (fit_transform (map page_content c2)))
      /\ LocalVectorStore.embeddings self
         = Some (snd (fit_transform (map page_content c2)))
      /\ forall query k,
           exists r,
             LocalVectorStore.similarity_search self query k = Ok r
             /\ forall d, In d r -> In d c2)
  /\ (forall (before : LocalEmbeddingVectorStore.t) (c1 c2 : list Document),
         let self :=
           LocalEmbeddingVectorStore.add_documents
             (LocalEmbeddingVectorStore.add_documents before c1) c2 in
         LocalEmbeddingVectorStore.documents self
         = LocalEmbeddingVectorStore.documents before ++ c1 ++ c2
         /\ LocalEmbeddingVectorStore.embeddings self
            = Some (match LocalEmbeddingVectorStore.embeddings before with
                    | Some rows => rows
                    | None => []
                    end
                    ++ map encode (map page_content c1)
                    ++ map encode (map page_content c2))).
Proof.
  split.
  - intros before c1 c2 self. repeat split.
    intros query k.
    destruct (similarity_search_spec self query k
                (add_documents_aligned _ c2)) as [r [Hr Hall]].
    exists r. split; [exact Hr |].
    intros d Hd. exact (Forall2_lookup_In _ _ _ Hall d Hd).
  - intros before c1 c2 self. subst self.
    unfold LocalEmbeddingVectorStore.add_documents. simpl.
    rewrite <- app_assoc. split; [reflexivity |].
    destruct (LocalEmbeddingVectorStore.embeddings before);
      [rewrite <- app_assoc |]; reflexivity.
Qed.

(** C3 as stated fails on the embedding store: after indexing the "card"
    chunk and then the "loan" chunk, a search still returns the "card"
    chunk, which is no chunk of the second collection. *)
Lemma embedding_store_keeps_first_collection :
  LocalEmbeddingVectorStore.similarity_search
    (LocalEmbeddingVectorStore.add_documents
       (LocalEmbeddingVectorStore.add_documents
          LocalEmbeddingVectorStore.init [Sample.card1])
       [Sample.loan]) "card" 3
  = Ok [Sample.card1; Sample.loan]
  /\ ~ In Sample.card1 [Sample.loan].
Proof.
  split; [reflexivity |].
  intros [H | []]. discriminate H.
Qed.

(** C4.  On an index built from a collection of [n] chunks (non-empty or
    not), and for every [k >= 1], [similarity_search] returns normally
    with at most [min k n] chunks, and [keyword_search] returns at most
    [min k n] chunks. *)
Theorem search_results_at_most_k {L : Libraries}
    (before : LocalVectorStore.t) (chunks : list Document)
    (query : string) (k : Z) :
  (1 <= k)%Z ->
  let self := LocalVectorStore.add_documents before chunks in
  (exists r,
      LocalVectorStore.similarity_search self query k = Ok r
      /\ List.length r <= Nat.min (Z.to_nat k) (List.length chunks))
  /\ List.length (LocalVectorStore.keyword_search self query k)
     <= Nat.min (Z.to_nat k) (List.length chunks).
Proof.
  intros Hk self.
  pose proof (add_documents_aligned before chunks) as Hal.
  split.
  - destruct (similarity_search_spec self query k Hal) as [r [Hr Hall]].
    exists r. split; [exact Hr |].
    rewrite (Forall2_same_length _ _ _ Hall).
    exact (result_indices_length self query k Hk Hal).
  - apply (keyword_search_length self query k). lia.
Qed.

(** The scenario of C4: [k = 3] against an index of one chunk. *)
Lemma search_results_at_most_k_witness :
  (1 <= 3)%Z
  /\ (exists r,
         LocalVectorStore.similarity_search
           (LocalVectorStore.add_documents LocalVectorStore.init [Sample.card1])
           "card" 3 = Ok r
         /\ List.length r <= 1)
  /\ List.length
       (LocalVectorStore.keyword_search
          (LocalVectorStore.add_documents LocalVectorStore.init [Sample.card1])
          "card" 3) <= 1.
Proof.
  split; [lia |].
  exact (@search_results_at_most_k Stub.libraries LocalVectorStore.init
           [Sample.card1] "card"%string 3%Z ltac:(lia)).
Defined.

(** C5.  When the query's vector has norm zero, every similarity is 0
    (the library's convention) and [similarity_search] returns the empty
    list, for every [k] and whatever the stored rows: nothing is divided,
    no document is read, nothing is raised. *)
Theorem zero_norm_query_returns_nothing {L : Libraries}
    (self : LocalVectorStore.t) (f : Fitted) (query : string) (k : Z) :
  LocalVectorStore.vectorizer self = Some f ->
  (row_norm (transform f query) == 0)%Q ->
  Forall (fun x => (x == 0)%Q) (LocalVectorStore.similarities self query)
  /\ LocalVectorStore.similarity_search self query k = Ok [].
Proof.
  intros Hvec Hnorm.
  assert (Hrows : forall rows,
    Forall (fun x => (x == 0)%Q) (map (cosine_similarity (transform f query)) rows)).
  { intros rows. rewrite Forall_forall. intros x Hx.
    apply in_map_iff in Hx. destruct Hx as [row [<- _]].
    apply cosine_similarity_zero. left. exact Hnorm. }
  unfold LocalVectorStore.similarities, LocalVectorStore.similarity_search.
  rewrite Hvec.
  destruct (LocalVectorStore.embeddings self) as [emb |].
  - split; [apply Hrows |].
    destruct (List.length (LocalVectorStore.documents self) =? 0);
      [reflexivity | apply collect_all_zero, Hrows].
  - split; [constructor | reflexivity].
Qed.

(** C5 on the stand-in libraries: the empty query has the zero vector. *)
Lemma zero_norm_query_returns_nothing_witness :
  (row_norm (transform ["card"; "loan"]%string "") == 0)%Q
  /\ LocalVectorStore.similarity_search
       (LocalVectorStore.add_documents LocalVectorStore.init
          [Sample.card1; Sample.loan]) "" 3 = Ok [].
Proof.
  split; [reflexivity |].
  exact (proj2 (@zero_norm_query_returns_nothing Stub.libraries
                  (LocalVectorStore.add_documents LocalVectorStore.init
                     [Sample.card1; Sample.loan])
                  ["card"; "loan"]%string ""%string 3%Z
                  eq_refl ltac:(reflexivity))).
Defined.

(** C9 (as amended).  [similarity_search] has no guard on [k] and does
    not raise for any integer: on an index built by [add_documents] it
    returns a list for every [k], [k <= 0] included.  With [k = 0] the
    slice [[-0:]] is the whole ranking, so every chunk of positive
    similarity is returned. *)
Theorem similarity_search_never_raises {L : Libraries}
    (before : LocalVectorStore.t) (chunks : list Document) (query : string) :
  let self := LocalVectorStore.add_documents before chunks in
  (forall k : Z, exists r, LocalVectorStore.similarity_search self query k = Ok r)
  /\ (forall (i : nat) (d : Document),
         nth_error chunks i = Some d ->
         (0 < Py.item (LocalVectorStore.similarities self query) i)%Q ->
         exists r,
           LocalVectorStore.similarity_search self query 0 = Ok r /\ In d r).
Proof.
  intros self.
  pose proof (add_documents_aligned before chunks) as Hal.
  split.
  - intros k. destruct (similarity_search_spec self query k Hal) as [r [Hr _]].
    exists r. exact Hr.
  - intros i d Hid Hpos.
    destruct (similarity_search_spec self query 0 Hal) as [r [Hr Hall]].
    exists r. split; [exact Hr |].
    assert (Hin : In i (result_indices self query 0)).
    { unfold result_indices. apply filter_In. split; [| apply positive_iff, Hpos].
      rewrite top_indices_zero. apply in_rev. rewrite rev_involutive.
      apply (Permutation_in _ (Permutation_sym (argsort_perm _))).
      apply in_seq. split; [lia |]. simpl.
      unfold LocalVectorStore.similarities. simpl.
      rewrite length_map, fit_transform_rows, length_map.
      apply nth_error_Some. congruence. }
    destruct (Forall2_In_left _ _ _ Hall i Hin) as [d' [Hd' Hid']].
    simpl in Hid'. congruence.
Qed.

(** C9 on the stand-in libraries: [k = 0] returns the "card" chunk. *)
Lemma similarity_search_never_raises_witness :
  nth_error [Sample.loan; Sample.card1] 1 = Some Sample.card1
  /\ (0 < Py.item [0; 1]%Q 1)%Q
  /\ exists r,
       LocalVectorStore.similarity_search
         (LocalVectorStore.add_documents LocalVectorStore.init
            [Sample.loan; Sample.card1]) "card" 0 = Ok r
       /\ In Sample.card1 r.
Proof.
  split; [reflexivity |]. split; [reflexivity |].
  exact (proj2 (@similarity_search_never_raises Stub.libraries
                  LocalVectorStore.init [Sample.loan; Sample.card1] "card"%string)
               1 Sample.card1 eq_refl eq_refl).
Defined.

(** C9 as stated fails: with [k = 0] and with [k = -1] the search
    returns chunks instead of raising. *)
Lemma nonpositive_k_is_answered :
  LocalVectorStore.similarity_search
    (LocalVectorStore.add_documents LocalVectorStore.init
       [Sample.card1; Sample.card2; Sample.loan]) "card" 0
  = Ok [Sample.card2; Sample.card1]
  /\ LocalVectorStore.similarity_search
       (LocalVectorStore.add_documents LocalVectorStore.init
          [Sample.card1; Sample.card2; Sample.loan]) "card" (-1)
     = Ok [Sample.card2; Sample.card1].
Proof. split; reflexivity. Qed.

(** C6 (as amended).  For [k >= 0] each [keyword_search] is the
    specified ranking (zero scores discarded, descending score, ties in
    ingestion order, first [k]) under its own score.  In the TF-IDF
    store a chunk's score is the sum, over the lowercase query words
    longer than three characters, of occurrence count times word length;
    shorter words are ignored.  In the embedding store it is the number
    of distinct lowercase query words found among the chunk's lowercase
    words. *)
Theorem keyword_search_is_ranking {L : Libraries} :
  (forall (self : LocalVectorStore.t) (query : string) (k : Z),
      (0 <= k)%Z ->
      LocalVectorStore.keyword_search self query k
      = Spec.top
          (fun c => Spec.score (Str.lower (page_content c))
                      (filter long_word (Str.split (Str.lower query))))
          (LocalVectorStore.documents self) k)
  /\ (forall (self : LocalEmbeddingVectorStore.t) (query : string) (k : Z),
         (0 <= k)%Z ->
         LocalEmbeddingVectorStore.keyword_search self query k
         = Spec.top
             (fun c =>
                LocalEmbeddingVectorStore.overlap
                  (LocalEmbeddingVectorStore.word_set (Str.split (Str.lower query)))
                  (LocalEmbeddingVectorStore.word_set
                     (Str.split (Str.lower (page_content c)))))
             (LocalEmbeddingVectorStore.documents self) k)
  /\ (forall (score : Document -> Z) (chunks : list Document),
         Permutation (Spec.ranking score chunks)
                     (filter (fun c => (0 <? score c)%Z) chunks)
         /\ StronglySorted (fun a b => (score b <= score a)%Z)
                           (Spec.ranking score chunks)
         /\ forall v : Z,
              filter (fun c => (score c =? v)%Z) (Spec.ranking score chunks)
              = filter (fun c => (score c =? v)%Z)
                       (filter (fun c => (0 <? score c)%Z) chunks)).
Proof.
  split; [| split].
  - intros self query k Hk. unfold LocalVectorStore.keyword_search.
    destruct (LocalVectorStore.documents self) as [| d docs];
      [symmetry; apply top_nil |].
    rewrite scored_docs_map, sort_desc_pairs, slice_to_firstn by exact Hk.
    rewrite firstn_map, map_snd_pairs.
    apply (top_ext
             (fun c => LocalVectorStore.keyword_score (Str.lower (page_content c))
                         (Str.split (Str.lower query)))).
    intros c. apply keyword_score_long_words.
  - intros self query k Hk. unfold LocalEmbeddingVectorStore.keyword_search.
    destruct (LocalEmbeddingVectorStore.documents self) as [| d docs];
      [symmetry; apply top_nil |].
    rewrite sort_desc_pairs, slice_to_firstn by exact Hk.
    rewrite firstn_map, filter_map_swap, map_snd_pairs. simpl fst.
    apply cut_then_filter.
  - intros score chunks. apply ranking_characterised.
Qed.

(** C6 on the stand-in libraries: one long and one short query word. *)
Lemma keyword_search_is_ranking_witness :
  (0 <= 3)%Z
  /\ LocalVectorStore.keyword_search
       (LocalVectorStore.add_documents LocalVectorStore.init
          [Sample.loan; Sample.card1; Sample.card2]) "a Card" 3
     = [Sample.card1; Sample.card2]
  /\ LocalEmbeddingVectorStore.keyword_search
       (LocalEmbeddingVectorStore.add_documents LocalEmbeddingVectorStore.init
          [Sample.loan; Sample.card1; Sample.card2]) "a Card" 3
     = [Sample.card1; Sample.card2].
Proof.
  split; [lia |]. split.
  - exact (proj1 (@keyword_search_is_ranking Stub.libraries)
             (LocalVectorStore.add_documents LocalVectorStore.init
                [Sample.loan; Sample.card1; Sample.card2])
             "a Card"%string 3%Z ltac:(lia)).
  - exact (proj1 (proj2 (@keyword_search_is_ranking Stub.libraries))
             (LocalEmbeddingVectorStore.add_documents LocalEmbeddingVectorStore.init
                [Sample.loan; Sample.card1; Sample.card2])
             "a Card"%string 3%Z ltac:(lia)).
Defined.

(** C6 as stated fails.  The query "cat" occurs twice in the chunk
    "cat cat": the stated score is 2 x 3 = 6 and the chunk is the stated
    answer, but the TF-IDF store's [keyword_search] returns nothing.  In
    the embedding store "card card card" (stated score 12) is ranked
    below "card loan" (stated score 8) for the query "card loan". *)
Lemma keyword_score_is_not_count_times_length :
  (Spec.keywordSearch [Sample.cats] "cat" 3 = [Sample.cats]
   /\ LocalVectorStore.keyword_search
        (LocalVectorStore.add_documents LocalVectorStore.init [Sample.cats])
        "cat" 3 = [])
  /\ (Spec.keywordSearch
        [Sample.chunk "card card card" "6"; Sample.chunk "card loan" "7"]
        "card loan" 3
      = [Sample.chunk "card card card" "6"; Sample.chunk "card loan" "7"]
      /\ LocalEmbeddingVectorStore.keyword_search
           (LocalEmbeddingVectorStore.add_documents LocalEmbeddingVectorStore.init
              [Sample.chunk "card card card" "6"; Sample.chunk "card loan" "7"])
           "card loan" 3
         = [Sample.chunk "card loan" "7"; Sample.chunk "card card card" "6"]).
Proof. repeat split. Qed.

(** C10.  In the TF-IDF store's [keyword_search] the query words of at
    most three characters add nothing to a chunk's score, so a query
    made of such words only finds nothing, for every collection and
    every [k], even where the words occur in the chunks. *)
Theorem short_query_words_find_nothing {L : Libraries} :
  (forall (content : string) (query_words : list string),
      LocalVectorStore.keyword_score content query_words
      = LocalVectorStore.keyword_score content
          (filter (fun w => negb (String.length w <=? 3)) query_words))
  /\ (forall (self : LocalVectorStore.t) (query : string) (k : Z),
         Forall (fun w => String.length w <= 3) (Str.split (Str.lower query)) ->
         LocalVectorStore.keyword_search self query k = []).
Proof.
  assert (Hlong : forall w, long_word w = negb (String.length w <=? 3)).
  { intros w. unfold long_word, Str.len.
    destruct (Nat.leb_spec (String.length w) 3);
      [apply Z.ltb_ge | apply Z.ltb_lt]; lia. }
  split.
  - intros content query_words.
    rewrite !keyword_score_long_words.
    rewrite (filter_ext _ _ Hlong (filter _ query_words)).
    rewrite (filter_ext _ _ Hlong query_words).
    f_equal. induction query_words as [| w ws IH]; simpl; [reflexivity |].
    destruct (negb (String.length w <=? 3)) eqn:E; simpl;
      [rewrite E; f_equal; exact IH | exact IH].
  - intros self query k Hshort. unfold LocalVectorStore.keyword_search.
    destruct (LocalVectorStore.documents self) as [| d docs]; [reflexivity |].
    assert (Hnone : filter long_word (Str.split (Str.lower query)) = []).
    { induction Hshort as [| w ws Hw Hws IH]; simpl; [reflexivity |].
      rewrite Hlong. destruct (Nat.leb_spec (String.length w) 3); [exact IH | lia]. }
    assert (Hscored : LocalVectorStore.scored_docs (d :: docs)
                        (Str.split (Str.lower query)) = []).
    { generalize (d :: docs) as l. induction l as [| c l IH]; simpl; [reflexivity |].
      rewrite keyword_score_long_words, Hnone, IH. reflexivity. }
    rewrite Hscored. unfold Py.slice_to. simpl. rewrite firstn_nil. reflexivity.
Qed.

(** C10 on the stand-in libraries: "the cat" against a chunk that
    contains both words. *)
Lemma short_query_words_find_nothing_witness :
  Forall (fun w => String.length w <= 3) (Str.split (Str.lower "The cat"))
  /\ LocalVectorStore.keyword_search
       (LocalVectorStore.add_documents LocalVectorStore.init
          [Sample.chunk "the cat sat" "8"]) "The cat" 3 = [].
Proof.
  assert (H : Forall (fun w => String.length w <= 3) (Str.split (Str.lower "The cat"))).
  { simpl. repeat constructor. }
  split; [exact H |].
  exact (proj2 (@short_query_words_find_nothing Stub.libraries)
           (LocalVectorStore.add_documents LocalVectorStore.init
              [Sample.chunk "the cat sat" "8"]) "The cat"%string 3%Z H).
Defined.

End Claims.

(** * Further properties of the retrieval code *)

(** ** Lists *)

Section ListFacts.
Context {A : Type}.

Lemma lookup_functional (l : list A) (idxs : list nat) (r r' : list A) :
  Forall2 (fun i d => nth_error l i = Some d) idxs r ->
  Forall2 (fun i d => nth_error l i = Some d) idxs r' ->
  r = r'.
Proof.
  intros H. revert r'. induction H as [| i d idxs r Hid Hrest IH]; intros r' H'.
  - inversion H'. reflexivity.
  - inversion H' as [| ? d' ? r'' Hid' Hrest']; subst.
    f_equal; [congruence | apply IH; exact Hrest'].
Qed.

Lemma Forall2_firstn {B : Type} (R : A -> B -> Prop) (n : nat)
    (l : list A) (r : list B) :
  Forall2 R l r -> Forall2 R (firstn n l) (firstn n r).
Proof.
  intros H. revert n. induction H as [| a b l r Hab Hrest IH]; intros n.
  - rewrite !firstn_nil. constructor.
  - destruct n as [| n]; simpl; constructor; [exact Hab | apply IH].
Qed.

(** In a sorted list whatever is kept by a cut comes before whatever is
    cut off. *)
Lemma sorted_cut (R : A -> A -> Prop) (n : nat) (l : list A) (x y : A) :
  StronglySorted R l -> In x (firstn n l) -> In y (skipn n l) -> R x y.
Proof.
  intros Hs. revert n. induction Hs as [| a l Hs IH Ha]; intros n Hx Hy.
  - rewrite firstn_nil in Hx. contradiction.
  - destruct n as [| n]; [contradiction |]. simpl in Hx, Hy.
    destruct Hx as [<- | Hx]; [| exact (IH n Hx Hy)].
    rewrite Forall_forall in Ha. apply Ha.
    rewrite <- (firstn_skipn n l). apply in_or_app. right. exact Hy.
Qed.

Lemma in_firstn_or_skipn (n : nat) (l : list A) (x : A) :
  In x l -> In x (firstn n l) \/ In x (skipn n l).
Proof.
  intros H. rewrite <- (firstn_skipn n l) in H. apply in_app_or, H.
Qed.

End ListFacts.

(** ** The TF-IDF ranking *)

Section RankingFacts.
Context {L : Libraries}.

(** All the rows of positive similarity, best first. *)
Lemma top_indices_firstn (sims : list Q) (k : Z) :
  (1 <= k)%Z ->
  LocalVectorStore.top_indices sims k
  = firstn (Z.to_nat k) (rev (Py.argsort sims)).
Proof.
  intros Hk. unfold LocalVectorStore.top_indices, Py.slice_from.
  destruct (Z.ltb_spec (- k) 0); [| lia].
  rewrite firstn_rev. f_equal. f_equal. lia.
Qed.

Lemma descending_sorted (sims : list Q) :
  StronglySorted (ranked_before sims) (rev (Py.argsort sims)).
Proof.
  apply (StronglySorted_rev (index_before sims)), argsort_sorted.
Qed.

Lemma ranked_before_le (sims : list Q) (i j : nat) :
  ranked_before sims i j -> (Py.item sims j <= Py.item sims i)%Q.
Proof.
  intros [H | [H _]]; [apply Qlt_le_weak, H | rewrite H; apply Qle_refl].
Qed.

Lemma positive_upper (sims : list Q) (i j : nat) :
  Qle_bool (Py.item sims j) (Py.item sims i) = true ->
  Py.positive (Py.item sims j) = true ->
  Py.positive (Py.item sims i) = true.
Proof.
  intros Hle Hj. apply Qle_bool_iff in Hle. apply positive_iff in Hj.
  apply positive_iff. eapply Qlt_le_trans; eassumption.
Qed.

Lemma result_indices_firstn (self : LocalVectorStore.t) (query : string) (k : Z) :
  (1 <= k)%Z ->
  result_indices self query k
  = firstn (Z.to_nat k)
      (filter (fun i => Py.positive
                          (Py.item (LocalVectorStore.similarities self query) i))
              (rev (Py.argsort (LocalVectorStore.similarities self query)))).
Proof.
  intros Hk. unfold result_indices. rewrite top_indices_firstn by exact Hk.
  set (sims := LocalVectorStore.similarities self query).
  apply (firstn_filter_sorted
           (fun i j => Qle_bool (Py.item sims j) (Py.item sims i))).
  - intros i j. apply positive_upper.
  - apply (StronglySorted_weaken (ranked_before sims)); [| apply descending_sorted].
    intros i j H. apply Qle_bool_iff, ranked_before_le, H.
Qed.

Lemma similarities_built (before : LocalVectorStore.t) (chunks : list Document)
    (query : string) :
  List.length (LocalVectorStore.similarities
                 (LocalVectorStore.add_documents before chunks) query)
  = List.length chunks.
Proof.
  unfold LocalVectorStore.similarities. simpl.
  rewrite length_map, fit_transform_rows. apply length_map.
Qed.

Lemma row_ranked (sims : list Q) (i : nat) :
  i < List.length sims -> In i (rev (Py.argsort sims)).
Proof.
  intros Hi. apply in_rev. rewrite rev_involutive.
  apply (Permutation_in _ (Permutation_sym (argsort_perm sims))).
  apply in_seq. lia.
Qed.

End RankingFacts.

Section RankingProperties.
Import Stub.

Lemma NoDup_firstn {A : Type} (n : nat) (l : list A) :
  NoDup l -> NoDup (firstn n l).
Proof.
  intros H. revert n. induction H as [| x l Hx Hl IH]; intros n.
  - rewrite firstn_nil. constructor.
  - destruct n as [| n]; simpl; constructor; [| apply IH].
    intros Hin. apply Hx.
    rewrite <- (firstn_skipn n l). apply in_or_app. left. exact Hin.
Qed.

(** X1.  Asking the TF-IDF store for more results only extends the
    list: for [1 <= k <= k'] the result for [k] is the first [k] entries
    of the result for [k']. *)
Theorem similarity_search_extends_with_k {L : Libraries}
    (before : LocalVectorStore.t) (chunks : list Document)
    (query : string) (k k' : Z) :
  (1 <= k)%Z -> (k <= k')%Z ->
  let self := LocalVectorStore.add_documents before chunks in
  exists r r',
    LocalVectorStore.similarity_search self query k = Ok r
    /\ LocalVectorStore.similarity_search self query k' = Ok r'
    /\ r = firstn (Z.to_nat k) r'.
Proof.
  intros Hk Hkk' self.
  pose proof (add_documents_aligned before chunks) as Hal.
  destruct (similarity_search_spec self query k Hal) as [r [Hr Hall]].
  destruct (similarity_search_spec self query k' Hal) as [r' [Hr' Hall']].
  exists r, r'. split; [exact Hr |]. split; [exact Hr' |].
  apply (lookup_functional _ _ _ _ Hall).
  rewrite result_indices_firstn in Hall' by lia.
  rewrite result_indices_firstn by exact Hk.
  apply (Forall2_firstn _ (Z.to_nat k)) in Hall'.
  rewrite firstn_firstn in Hall'.
  replace (Nat.min (Z.to_nat k) (Z.to_nat k')) with (Z.to_nat k) in Hall' by lia.
  exact Hall'.
Qed.

Lemma similarity_search_extends_with_k_witness :
  (1 <= 1)%Z /\ (1 <= 3)%Z
  /\ exists r r',
      LocalVectorStore.similarity_search
        (LocalVectorStore.add_documents LocalVectorStore.init
           [Sample.card1; Sample.loan; Sample.card2]) "card" 1 = Ok r
      /\ LocalVectorStore.similarity_search
           (LocalVectorStore.add_documents LocalVectorStore.init
              [Sample.card1; Sample.loan; Sample.card2]) "card" 3 = Ok r'
      /\ r = firstn 1 r'.
Proof.
  split; [lia |]. split; [lia |].
  exact (@similarity_search_extends_with_k Stub.libraries LocalVectorStore.init
           [Sample.card1; Sample.loan; Sample.card2] "card"%string 1%Z 3%Z
           ltac:(lia) ltac:(lia)).
Defined.

(** X2.  A short list is a complete one: when the TF-IDF store returns
    fewer than [k] chunks for [k >= 1], every chunk of positive
    similarity to the query is in the result. *)
Theorem short_result_is_complete {L : Libraries}
    (before : LocalVectorStore.t) (chunks : list Document)
    (query : string) (k : Z) (r : list Document) :
  (1 <= k)%Z ->
  let self := LocalVectorStore.add_documents before chunks in
  LocalVectorStore.similarity_search self query k = Ok r ->
  List.length r < Z.to_nat k ->
  forall (i : nat) (d : Document),
    nth_error chunks i = Some d ->
    (0 < Py.item (LocalVectorStore.similarities self query) i)%Q ->
    In d r.
Proof.
  intros Hk self Hr Hshort i d Hid Hpos.
  pose proof (add_documents_aligned before chunks) as Hal.
  destruct (similarity_search_spec self query k Hal) as [r0 [Hr0 Hall]].
  rewrite Hr in Hr0. inversion Hr0; subst r0. clear Hr0.
  rewrite result_indices_firstn in Hall by exact Hk.
  pose proof (Forall2_same_length _ _ _ Hall) as Hlen.
  rewrite length_firstn in Hlen.
  assert (Hin : In i (firstn (Z.to_nat k)
    (filter (fun i => Py.positive
                        (Py.item (LocalVectorStore.similarities self query) i))
            (rev (Py.argsort (LocalVectorStore.similarities self query)))))).
  { rewrite firstn_all2 by lia. apply filter_In. split.
    - apply row_ranked. unfold self. rewrite similarities_built.
      apply nth_error_Some. congruence.
    - apply positive_iff, Hpos. }
  destruct (Forall2_In_left _ _ _ Hall i Hin) as [d' [Hd' Hid']].
  simpl in Hid'. congruence.
Qed.

Lemma short_result_is_complete_witness :
  (1 <= 3)%Z
  /\ LocalVectorStore.similarity_search
       (LocalVectorStore.add_documents LocalVectorStore.init
          [Sample.card1; Sample.loan; Sample.card2]) "card" 3
     = Ok [Sample.card2; Sample.card1]
  /\ 2 < 3
  /\ nth_error [Sample.card1; Sample.loan; Sample.card2] 0 = Some Sample.card1
  /\ (0 < Py.item [1; 0; 1]%Q 0)%Q
  /\ In Sample.card1 [Sample.card2; Sample.card1].
Proof.
  split; [lia |]. split; [reflexivity |]. split; [lia |].
  split; [reflexivity |]. split; [reflexivity |].
  exact (@short_result_is_complete Stub.libraries LocalVectorStore.init
           [Sample.card1; Sample.loan; Sample.card2] "card"%string 3%Z
           [Sample.card2; Sample.card1] ltac:(lia) eq_refl ltac:(simpl; lia)
           0 Sample.card1 eq_refl eq_refl).
Defined.

(** X3.  The best match comes first: when some chunk has positive
    similarity to the query and [k >= 1], the TF-IDF store returns a
    non-empty list whose first chunk sits at a row of maximal
    similarity. *)
Theorem best_match_comes_first {L : Libraries}
    (before : LocalVectorStore.t) (chunks : list Document)
    (query : string) (k : Z) (j : nat) :
  (1 <= k)%Z ->
  let self := LocalVectorStore.add_documents before chunks in
  let sims := LocalVectorStore.similarities self query in
  j < List.length chunks -> (0 < Py.item sims j)%Q ->
  exists (i0 : nat) (d0 : Document) (rest : list Document),
    LocalVectorStore.similarity_search self query k = Ok (d0 :: rest)
    /\ nth_error chunks i0 = Some d0
    /\ forall i, (Py.item sims i <= Py.item sims i0)%Q.
Proof.
  intros Hk self sims Hj Hpos.
  pose proof (add_documents_aligned before chunks) as Hal.
  destruct (similarity_search_spec self query k Hal) as [r [Hr Hall]].
  rewrite result_indices_firstn in Hall by exact Hk. fold sims in Hall.
  pose proof (descending_sorted sims) as Hsorted.
  assert (Hlen : List.length sims = List.length chunks)
    by (apply similarities_built).
  assert (HjR : In j (rev (Py.argsort sims)))
    by (apply row_ranked; lia).
  destruct (rev (Py.argsort sims)) as [| i0 R] eqn:HR; [contradiction |].
  inversion Hsorted as [| ? ? HsR Hhead]; subst.
  rewrite Forall_forall in Hhead.
  assert (Hmax : forall i, In i (i0 :: R) ->
                           (Py.item sims i <= Py.item sims i0)%Q).
  { intros i [<- | Hi]; [apply Qle_refl | apply ranked_before_le, Hhead, Hi]. }
  assert (Hi0 : (0 < Py.item sims i0)%Q)
    by (eapply Qlt_le_trans; [exact Hpos | apply Hmax, HjR]).
  simpl in Hall. rewrite (proj2 (positive_iff _) Hi0) in Hall.
  destruct (Z.to_nat k) as [| n] eqn:Hn; [lia |]. simpl in Hall.
  inversion Hall as [| ? d0 ? rest Hd0 Hrest]; subst.
  exists i0, d0, rest. split; [exact Hr |]. split; [exact Hd0 |].
  intros i. destruct (Nat.lt_ge_cases i (List.length sims)) as [Hlt | Hge].
  - apply Hmax. rewrite <- HR. apply row_ranked, Hlt.
  - unfold Py.item at 1. rewrite nth_overflow by exact Hge.
    apply Qlt_le_weak, Hi0.
Qed.

Lemma best_match_comes_first_witness :
  (1 <= 1)%Z /\ 2 < 3 /\ (0 < Py.item [0; 0; 1]%Q 2)%Q
  /\ exists (i0 : nat) (d0 : Document) (rest : list Document),
      LocalVectorStore.similarity_search
        (LocalVectorStore.add_documents LocalVectorStore.init
           [Sample.loan; Sample.cats; Sample.card1]) "card" 1 = Ok (d0 :: rest)
      /\ nth_error [Sample.loan; Sample.cats; Sample.card1] i0 = Some d0
      /\ forall i, (Py.item [0; 0; 1]%Q i <= Py.item [0; 0; 1]%Q i0)%Q.
Proof.
  split; [lia |]. split; [lia |]. split; [reflexivity |].
  exact (@best_match_comes_first Stub.libraries LocalVectorStore.init
           [Sample.loan; Sample.cats; Sample.card1] "card"%string 1%Z 2
           ltac:(lia) ltac:(simpl; lia) eq_refl).
Defined.

(** X4.  The TF-IDF store returns the best rows and none twice: for
    [k >= 1] the result is read at pairwise distinct rows, and a row of
    positive similarity that is left out has a similarity at most that
    of every returned row. *)
Theorem similarity_search_returns_the_best {L : Libraries}
    (before : LocalVectorStore.t) (chunks : list Document)
    (query : string) (k : Z) :
  (1 <= k)%Z ->
  let self := LocalVectorStore.add_documents before chunks in
  let sims := LocalVectorStore.similarities self query in
  exists (idxs : list nat) (r : list Document),
    LocalVectorStore.similarity_search self query k = Ok r
    /\ Forall2 (fun i d => nth_error chunks i = Some d) idxs r
    /\ NoDup idxs
    /\ forall i j,
         In i idxs -> ~ In j idxs -> (0 < Py.item sims j)%Q ->
         (Py.item sims j <= Py.item sims i)%Q.
Proof.
  intros Hk self sims.
  pose proof (add_documents_aligned before chunks) as Hal.
  destruct (similarity_search_spec self query k Hal) as [r [Hr Hall]].
  exists (result_indices self query k), r.
  split; [exact Hr |]. split; [exact Hall |].
  rewrite result_indices_firstn by exact Hk. fold sims.
  set (ranking := filter (fun i => Py.positive (Py.item sims i))
                         (rev (Py.argsort sims))).
  assert (Hnodup : NoDup (rev (Py.argsort sims))).
  { apply NoDup_rev.
    apply (Permutation_NoDup (Permutation_sym (argsort_perm sims))), seq_NoDup. }
  split; [apply NoDup_firstn, NoDup_filter, Hnodup |].
  intros i j Hi Hnot Hpos.
  assert (Hj : In j ranking).
  { apply filter_In. split; [| apply positive_iff, Hpos].
    apply row_ranked.
    destruct (Nat.lt_ge_cases j (List.length sims)) as [Hlt | Hge];
      [exact Hlt |].
    unfold Py.item in Hpos. rewrite nth_overflow in Hpos by exact Hge.
    discriminate Hpos. }
  destruct (in_firstn_or_skipn (Z.to_nat k) ranking j Hj) as [Hin | Hout];
    [contradiction |].
  apply ranked_before_le.
  apply (sorted_cut (ranked_before sims) (Z.to_nat k) ranking i j);
    [| exact Hi | exact Hout].
  apply StronglySorted_filter, descending_sorted.
Qed.

Lemma similarity_search_returns_the_best_witness :
  (1 <= 1)%Z
  /\ exists (idxs : list nat) (r : list Document),
      LocalVectorStore.similarity_search
        (LocalVectorStore.add_documents LocalVectorStore.init
           [Sample.card1; Sample.chunk "card loan" "9"]) "card" 1 = Ok r
      /\ Forall2
           (fun i d =>
              nth_error [Sample.card1; Sample.chunk "card loan" "9"] i = Some d)
           idxs r
      /\ NoDup idxs
      /\ forall i j,
           In i idxs -> ~ In j idxs ->
           (0 < Py.item [1; 1000000 # 1414213]%Q j)%Q ->
           (Py.item [1; 1000000 # 1414213]%Q j
            <= Py.item [1; 1000000 # 1414213]%Q i)%Q.
Proof.
  split; [lia |].
  exact (@similarity_search_returns_the_best Stub.libraries LocalVectorStore.init
           [Sample.card1; Sample.chunk "card loan" "9"] "card"%string 1%Z
           ltac:(lia)).
Defined.

End RankingProperties.

(** ** The embedding store *)

Section EmbeddingProperties.
Import Stub.

Lemma embedding_top_rows {L : Libraries}
    (self : LocalEmbeddingVectorStore.t) (query : string) (k : Z) :
  stacked self -> (1 <= k)%Z ->
  LocalEmbeddingVectorStore.documents self <> [] ->
  let sims :=
    LocalEmbeddingVectorStore.similarities_of
      (encode query) (LocalEmbeddingVectorStore.embeddings self) in
  exists (idxs : list nat) (r : list Document),
    LocalEmbeddingVectorStore.similarity_search self query k = Ok r
    /\ Forall2
         (fun i d => nth_error (LocalEmbeddingVectorStore.documents self) i = Some d)
         idxs r
    /\ NoDup idxs
    /\ forall i j,
         In i idxs -> ~ In j idxs ->
         j < List.length (LocalEmbeddingVectorStore.documents self) ->
         (Py.item sims j <= Py.item sims i)%Q.
Proof.
  intros Hst Hk Hne sims.
  destruct (embedding_search_spec self query k Hst) as [r [Hr [Hall _]]].
  specialize (Hall Hne).
  exists (embedding_indices self query k), r.
  split; [exact Hr |]. split; [exact Hall |].
  assert (Hidx : embedding_indices self query k
                 = firstn (Z.to_nat k) (rev (Py.argsort sims))).
  { exact (top_indices_firstn sims k Hk). }
  rewrite Hidx.
  assert (Hnodup : NoDup (rev (Py.argsort sims))).
  { apply NoDup_rev.
    apply (Permutation_NoDup (Permutation_sym (argsort_perm sims))), seq_NoDup. }
  split; [apply NoDup_firstn, Hnodup |].
  intros i j Hi Hnot Hj.
  assert (Hlen : List.length sims
                 = List.length (LocalEmbeddingVectorStore.documents self)).
  { unfold sims, stacked in *.
    destruct (LocalEmbeddingVectorStore.embeddings self) as [emb |];
      [simpl; rewrite length_map; exact Hst | contradiction]. }
  assert (HjR : In j (rev (Py.argsort sims))) by (apply row_ranked; lia).
  destruct (in_firstn_or_skipn (Z.to_nat k) _ j HjR) as [Hin | Hout];
    [contradiction |].
  apply ranked_before_le.
  exact (sorted_cut (ranked_before sims) (Z.to_nat k) _ i j
           (descending_sorted sims) Hi Hout).
Qed.

(** X5.  The embedding store returns the [k] best rows: for [k >= 1] on
    a non-empty store the result is read at pairwise distinct rows, and
    every row left out has a similarity at most that of every returned
    row. *)
Theorem embedding_search_returns_the_best {L : Libraries}
    (self : LocalEmbeddingVectorStore.t) (query : string) (k : Z) :
  stacked self -> (1 <= k)%Z ->
  LocalEmbeddingVectorStore.documents self <> [] ->
  let sims :=
    LocalEmbeddingVectorStore.similarities_of
      (encode query) (LocalEmbeddingVectorStore.embeddings self) in
  exists (idxs : list nat) (r : list Document),
    LocalEmbeddingVectorStore.similarity_search self query k = Ok r
    /\ Forall2
         (fun i d => nth_error (LocalEmbeddingVectorStore.documents self) i = Some d)
         idxs r
    /\ NoDup idxs
    /\ forall i j,
         In i idxs -> ~ In j idxs ->
         j < List.length (LocalEmbeddingVectorStore.documents self) ->
         (Py.item sims j <= Py.item sims i)%Q.
Proof. apply embedding_top_rows. Qed.

Lemma embedding_search_returns_the_best_witness :
  stacked (LocalEmbeddingVectorStore.add_documents
             LocalEmbeddingVectorStore.init [Sample.loan; Sample.card1])
  /\ (1 <= 1)%Z
  /\ exists (idxs : list nat) (r : list Document),
      LocalEmbeddingVectorStore.similarity_search
        (LocalEmbeddingVectorStore.add_documents
           LocalEmbeddingVectorStore.init [Sample.loan; Sample.card1])
        "card" 1 = Ok r
      /\ Forall2 (fun i d => nth_error [Sample.loan; Sample.card1] i = Some d)
                 idxs r
      /\ NoDup idxs
      /\ forall i j,
           In i idxs -> ~ In j idxs -> j < 2 ->
           (Py.item [0; 1]%Q j <= Py.item [0; 1]%Q i)%Q.
Proof.
  split; [apply add_documents_stacked, init_stacked |]. split; [lia |].
  exact (@embedding_search_returns_the_best Stub.libraries
           (LocalEmbeddingVectorStore.add_documents
              LocalEmbeddingVectorStore.init [Sample.loan; Sample.card1])
           "card"%string 1%Z
           (add_documents_stacked _ _ init_stacked) ltac:(lia)
           ltac:(discriminate)).
Defined.

(** X6.  On the embedding store indexing in batches is indexing at
    once: two [add_documents] calls leave the store that one call on the
    concatenated batch leaves. *)
Theorem embedding_batches_compose {L : Libraries}
    (self : LocalEmbeddingVectorStore.t) (c1 c2 : list Document) :
  LocalEmbeddingVectorStore.add_documents
    (LocalEmbeddingVectorStore.add_documents self c1) c2
  = LocalEmbeddingVectorStore.add_documents self (c1 ++ c2).
Proof.
  unfold LocalEmbeddingVectorStore.add_documents. simpl.
  rewrite <- app_assoc, !map_app.
  destruct (LocalEmbeddingVectorStore.embeddings self);
    [rewrite <- app_assoc |]; reflexivity.
Qed.

(** X7.  However the embedding store was filled from its initial state,
    row [i] is the encoding of the text of document [i]: the documents
    are the batches in order, and the rows are their encodings. *)
Theorem embedding_rows_follow_documents {L : Libraries}
    (batches : list (list Document)) :
  let self :=
    fold_left LocalEmbeddingVectorStore.add_documents batches
              LocalEmbeddingVectorStore.init in
  LocalEmbeddingVectorStore.documents self = List.concat batches
  /\ stacked self
  /\ forall rows,
       LocalEmbeddingVectorStore.embeddings self = Some rows ->
       rows = map (fun d => encode (page_content d)) (List.concat batches).
Proof.
  assert (Hgen : forall (bs : list (list Document)) (s : LocalEmbeddingVectorStore.t),
    stacked s ->
    (forall rows, LocalEmbeddingVectorStore.embeddings s = Some rows ->
       rows = map (fun d => encode (page_content d))
                  (LocalEmbeddingVectorStore.documents s)) ->
    let s' := fold_left LocalEmbeddingVectorStore.add_documents bs s in
    LocalEmbeddingVectorStore.documents s'
    = LocalEmbeddingVectorStore.documents s ++ List.concat bs
    /\ stacked s'
    /\ forall rows, LocalEmbeddingVectorStore.embeddings s' = Some rows ->
         rows = map (fun d => encode (page_content d))
                    (LocalEmbeddingVectorStore.documents s')).
  { induction bs as [| b bs IH]; intros s Hst Hrows; simpl.
    - rewrite app_nil_r. repeat split; assumption.
    - destruct (IH (LocalEmbeddingVectorStore.add_documents s b))
        as [Hdocs [Hst' Hrows']].
      + apply add_documents_stacked, Hst.
      + intros rows Hsome. simpl in Hsome. simpl. rewrite map_app.
        rewrite map_map in Hsome. unfold stacked in Hst.
        destruct (LocalEmbeddingVectorStore.embeddings s) as [old |] eqn:Hold.
        * inversion Hsome; subst. rewrite (Hrows old eq_refl). reflexivity.
        * inversion Hsome; subst. rewrite Hst. reflexivity.
      + split; [| split; assumption].
        rewrite Hdocs. simpl. rewrite app_assoc. reflexivity. }
  intros self.
  destruct (Hgen batches LocalEmbeddingVectorStore.init init_stacked)
    as [Hdocs [Hst Hrows]]; [discriminate |].
  split; [exact Hdocs |]. split; [exact Hst |].
  intros rows Hsome. rewrite (Hrows rows Hsome), Hdocs. reflexivity.
Qed.

End EmbeddingProperties.

(** ** The keyword searches *)

Section KeywordProperties.
Import Stub.

Lemma slice_to_incl {A : Type} (stop : Z) (l : list A) (x : A) :
  In x (Py.slice_to stop l) -> In x l.
Proof.
  unfold Py.slice_to. intros H.
  rewrite <- (firstn_skipn (Z.to_nat
    (if (stop <? 0)%Z
     then Z.max (Z.of_nat (List.length l) + stop) 0
     else Z.min stop (Z.of_nat (List.length l)))) l).
  apply in_or_app. left. exact H.
Qed.

Lemma score_positive (content : string) (query_words : list string) :
  (0 < Spec.score content query_words)%Z ->
  exists w, In w query_words /\ 0 < Str.count content w.
Proof.
  induction query_words as [| w ws IH]; simpl; [lia |].
  intros H. destruct (Nat.eq_dec (Str.count content w) 0) as [Hz | Hnz].
  - rewrite Hz in H. simpl in H.
    destruct (IH H) as [w' [Hin Hc]]. exists w'. split; [right |]; assumption.
  - exists w. split; [left; reflexivity | lia].
Qed.

Lemma keyword_hit {L : Libraries}
    (self : LocalVectorStore.t) (query : string) (k : Z) (d : Document) :
  In d (LocalVectorStore.keyword_search self query k) ->
  In d (LocalVectorStore.documents self)
  /\ exists w,
      In w (Str.split (Str.lower query))
      /\ 3 < String.length w
      /\ 0 < Str.count (Str.lower (page_content d)) w.
Proof.
  unfold LocalVectorStore.keyword_search.
  destruct (LocalVectorStore.documents self) as [| d0 docs]; [contradiction |].
  intros Hd. apply in_map_iff in Hd. destruct Hd as [[sc c] [Hsnd Hin]].
  simpl in Hsnd. subst c.
  apply slice_to_incl in Hin.
  apply (Permutation_in _ (sort_perm _ _)) in Hin.
  rewrite scored_docs_map in Hin. apply in_map_iff in Hin.
  destruct Hin as [c [Heq Hc]]. inversion Heq; subst c sc. clear Heq.
  apply filter_In in Hc. destruct Hc as [Hdocs Hpos].
  split; [exact Hdocs |].
  apply Z.ltb_lt in Hpos. rewrite keyword_score_long_words in Hpos.
  destruct (score_positive _ _ Hpos) as [w [Hw Hcount]].
  apply filter_In in Hw. destruct Hw as [Hw Hlong].
  exists w. split; [exact Hw |]. split; [| exact Hcount].
  unfold long_word, Str.len in Hlong. apply Z.ltb_lt in Hlong. lia.
Qed.

(** X8.  [keyword_search] of the TF-IDF store returns only chunks of the
    store in whose lowercased text some query word longer than three
    characters occurs, whatever [k]. *)
Theorem keyword_search_hits_contain_a_word {L : Libraries}
    (self : LocalVectorStore.t) (query : string) (k : Z) (d : Document) :
  In d (LocalVectorStore.keyword_search self query k) ->
  In d (LocalVectorStore.documents self)
  /\ exists w,
      In w (Str.split (Str.lower query))
      /\ 3 < String.length w
      /\ 0 < Str.count (Str.lower (page_content d)) w.
Proof. apply keyword_hit. Qed.

Lemma keyword_search_hits_contain_a_word_witness :
  In Sample.card1
     (LocalVectorStore.keyword_search
        (LocalVectorStore.add_documents LocalVectorStore.init
           [Sample.loan; Sample.card1]) "my CARD" 3)
  /\ In Sample.card1 [Sample.loan; Sample.card1]
  /\ exists w,
      In w ["my"; "card"]%string
      /\ 3 < String.length w
      /\ 0 < Str.count "card" w.
Proof.
  assert (H : In Sample.card1
     (LocalVectorStore.keyword_search
        (LocalVectorStore.add_documents LocalVectorStore.init
           [Sample.loan; Sample.card1]) "my CARD" 3))
    by (left; reflexivity).
  split; [exact H |].
  exact (@keyword_search_hits_contain_a_word Stub.libraries
           (LocalVectorStore.add_documents LocalVectorStore.init
              [Sample.loan; Sample.card1]) "my CARD"%string 3%Z Sample.card1 H).
Defined.

Lemma existsb_eqb_In (w : string) (ws : list string) :
  existsb (String.eqb w) ws = true <-> In w ws.
Proof.
  rewrite existsb_exists. split.
  - intros [x [Hin Heq]]. apply String.eqb_eq in Heq. subst x. exact Hin.
  - intros Hin. exists w. split; [exact Hin | apply String.eqb_refl].
Qed.

Lemma embedding_keyword_hit {L : Libraries}
    (self : LocalEmbeddingVectorStore.t) (query : string) (k : Z) (d : Document) :
  In d (LocalEmbeddingVectorStore.keyword_search self query k) ->
  In d (LocalEmbeddingVectorStore.documents self)
  /\ exists w,
      In w (Str.split (Str.lower query))
      /\ In w (Str.split (Str.lower (page_content d))).
Proof.
  unfold LocalEmbeddingVectorStore.keyword_search.
  destruct (LocalEmbeddingVectorStore.documents self) as [| d0 docs];
    [contradiction |].
  intros Hd. apply in_map_iff in Hd. destruct Hd as [[sc c] [Hsnd Hin]].
  simpl in Hsnd. subst c.
  apply filter_In in Hin. destruct Hin as [Hin Hpos]. simpl in Hpos.
  apply slice_to_incl in Hin.
  apply (Permutation_in _ (sort_perm _ _)) in Hin.
  apply in_map_iff in Hin. destruct Hin as [c [Heq Hc]].
  inversion Heq as [[Hsc Hcd]]; subst c. clear Heq.
  split; [exact Hc |].
  apply Z.ltb_lt in Hpos. rewrite <- Hsc in Hpos.
  unfold LocalEmbeddingVectorStore.overlap in Hpos.
  destruct (filter _ _) as [| w ws] eqn:Hf; [simpl in Hpos; lia |].
  assert (Hw : In w (w :: ws)) by (left; reflexivity).
  rewrite <- Hf in Hw. apply filter_In in Hw. destruct Hw as [Hq Hcontent].
  apply existsb_eqb_In in Hcontent.
  unfold LocalEmbeddingVectorStore.word_set in *.
  apply nodup_In in Hq, Hcontent.
  exists w. split; assumption.
Qed.

(** X9.  [keyword_search] of the embedding store matches whole words: a
    chunk it returns belongs to the store and shares a lowercase
    whitespace-separated word with the query, whatever [k]. *)
Theorem embedding_keyword_hits_share_a_word {L : Libraries}
    (self : LocalEmbeddingVectorStore.t) (query : string) (k : Z) (d : Document) :
  In d (LocalEmbeddingVectorStore.keyword_search self query k) ->
  In d (LocalEmbeddingVectorStore.documents self)
  /\ exists w,
      In w (Str.split (Str.lower query))
      /\ In w (Str.split (Str.lower (page_content d))).
Proof. apply embedding_keyword_hit. Qed.

Lemma embedding_keyword_hits_share_a_word_witness :
  In Sample.cats
     (LocalEmbeddingVectorStore.keyword_search
        (LocalEmbeddingVectorStore.add_documents LocalEmbeddingVectorStore.init
           [Sample.loan; Sample.cats]) "A Cat" 3)
  /\ In Sample.cats [Sample.loan; Sample.cats]
  /\ exists w, In w ["a"; "cat"]%string /\ In w ["cat"; "cat"]%string.
Proof.
  assert (H : In Sample.cats
     (LocalEmbeddingVectorStore.keyword_search
        (LocalEmbeddingVectorStore.add_documents LocalEmbeddingVectorStore.init
           [Sample.loan; Sample.cats]) "A Cat" 3))
    by (left; reflexivity).
  split; [exact H |].
  exact (@embedding_keyword_hits_share_a_word Stub.libraries
           (LocalEmbeddingVectorStore.add_documents LocalEmbeddingVectorStore.init
              [Sample.loan; Sample.cats]) "A Cat"%string 3%Z Sample.cats H).
Defined.

End KeywordProperties.

(** ** The retriever of [rag.py] *)

Section RetrieverProperties.
Import Stub.

(** X12.  [local_retriever] of [rag.py] on a store built by
    [add_documents], for [k >= 1]: it returns normally at most
    [min k n] chunks; a returned chunk either sits at a row of positive
    similarity or contains a query word longer than three characters;
    and an empty answer means that no row has positive similarity and
    that the keyword search found nothing. *)
Theorem local_retriever_answers {L : Libraries}
    (before : LocalVectorStore.t) (chunks : list Document)
    (query : string) (k : Z) :
  (1 <= k)%Z ->
  let self := LocalVectorStore.add_documents before chunks in
  let sims := LocalVectorStore.similarities self query in
  exists r,
    Rag.local_retriever self k query = Ok r
    /\ List.length r <= Nat.min (Z.to_nat k) (List.length chunks)
    /\ (forall d, In d r ->
          (exists i, nth_error chunks i = Some d /\ (0 < Py.item sims i)%Q)
          \/ (In d chunks
              /\ exists w,
                  In w (Str.split (Str.lower query))
                  /\ 3 < String.length w
                  /\ 0 < Str.count (Str.lower (page_content d)) w))
    /\ (r = [] ->
        (forall i, ~ (0 < Py.item sims i)%Q)
        /\ LocalVectorStore.keyword_search self query k = []).
Proof.
  intros Hk self sims.
  pose proof (add_documents_aligned before chunks) as Hal.
  destruct (similarity_search_spec self query k Hal) as [r0 [Hr0 Hall]].
  unfold Rag.local_retriever. rewrite Hr0. simpl.
  destruct r0 as [| d0 rest].
  - exists (LocalVectorStore.keyword_search self query k).
    split; [reflexivity |]. split; [| split].
    + apply (keyword_search_length self query k). lia.
    + intros d Hd. right. exact (keyword_hit self query k d Hd).
    + intros Hempty. split; [| exact Hempty].
      intros i Hpos.
      rewrite result_indices_firstn in Hall by exact Hk. fold sims in Hall.
      assert (Hin : In i (filter (fun i => Py.positive (Py.item sims i))
                                 (rev (Py.argsort sims)))).
      { apply filter_In. split; [| apply positive_iff, Hpos].
        apply row_ranked.
        destruct (Nat.lt_ge_cases i (List.length sims)) as [Hlt | Hge];
          [exact Hlt |].
        unfold Py.item in Hpos. rewrite nth_overflow in Hpos by exact Hge.
        discriminate Hpos. }
      inversion Hall as [Hnil |]. 
      destruct (filter _ _) as [| x xs]; [contradiction |].
      destruct (Z.to_nat k) eqn:Hn; [lia | discriminate Hnil].
  - exists (d0 :: rest). split; [reflexivity |]. split; [| split].
    + rewrite (Forall2_same_length _ _ _ Hall).
      exact (result_indices_length self query k Hk Hal).
    + intros d Hd. left.
      assert (Hpos : Forall (fun i => (0 < Py.item sims i)%Q)
                            (result_indices self query k)).
      { rewrite Forall_forall. intros i Hi. unfold result_indices in Hi.
        apply filter_In in Hi. apply positive_iff, Hi. }
      pose proof (Forall2_with_left _ _ _ _ Hall Hpos) as Hboth.
      clear - Hboth Hd. revert Hd.
      induction Hboth as [| i e idxs r [Hie Hi] Hrest IH]; [contradiction |].
      intros [<- | Hd]; [exists i; split; assumption | exact (IH Hd)].
    + discriminate.
Qed.

Lemma local_retriever_answers_witness :
  (1 <= 3)%Z
  /\ exists r,
      Rag.local_retriever
        (LocalVectorStore.add_documents LocalVectorStore.init
           [Sample.loan; Sample.chunk "cardholder" "9"]) 3 "card" = Ok r
      /\ List.length r <= 2
      /\ (forall d, In d r ->
            (exists i,
                nth_error [Sample.loan; Sample.chunk "cardholder" "9"] i = Some d
                /\ (0 < Py.item [0; 0]%Q i)%Q)
            \/ (In d [Sample.loan; Sample.chunk "cardholder" "9"]
                /\ exists w,
                    In w ["card"]%string
                    /\ 3 < String.length w
                    /\ 0 < Str.count (Str.lower (page_content d)) w))
      /\ (r = [] ->
          (forall i, ~ (0 < Py.item [0; 0]%Q i)%Q)
          /\ LocalVectorStore.keyword_search
               (LocalVectorStore.add_documents LocalVectorStore.init
                  [Sample.loan; Sample.chunk "cardholder" "9"]) "card" 3 = []).
Proof.
  split; [lia |].
  exact (@local_retriever_answers Stub.libraries LocalVectorStore.init
           [Sample.loan; Sample.chunk "cardholder" "9"] "card"%string 3%Z
           ltac:(lia)).
Defined.

End RetrieverProperties.

(** ** Formatting the chunks ([rag.py]) *)

Section FormatProperties.
Open Scope string_scope.

Lemma string_app_assoc (a b c : string) : a ++ (b ++ c) = (a ++ b) ++ c.
Proof. induction a as [| x a IH]; simpl; [reflexivity | rewrite IH; reflexivity]. Qed.

Lemma string_app_nil_r (a : string) : a ++ "" = a.
Proof. induction a as [| x a IH]; simpl; [reflexivity | rewrite IH; reflexivity]. Qed.

Lemma split_on_nonempty (sep : ascii) (s : string) : Rag.split_on sep s <> [].
Proof.
  destruct s as [| c s]; simpl; [discriminate |].
  destruct (Ascii.eqb c sep); [discriminate |].
  destruct (Rag.split_on sep s); discriminate.
Qed.

(** Joining the pieces with the separator gives the string back. *)
Lemma split_on_join (sep : ascii) (s : string) :
  String.concat (String sep "") (Rag.split_on sep s) = s.
Proof.
  induction s as [| c s IH]; simpl; [reflexivity |].
  destruct (Ascii.eqb_spec c sep) as [-> | Hne].
  - pose proof (split_on_nonempty sep s) as Hn.
    destruct (Rag.split_on sep s) as [| p ps] eqn:E; [contradiction |].
    change (String.concat (String sep "") ("" :: p :: ps))
      with (String sep (String.concat (String sep "") (p :: ps))).
    rewrite IH. reflexivity.
  - pose proof (split_on_nonempty sep s) as Hn.
    destruct (Rag.split_on sep s) as [| p ps] eqn:E; [contradiction |].
    destruct ps as [| q ps]; simpl in *; rewrite IH; reflexivity.
Qed.

Lemma split_on_pieces (sep : ascii) (s : string) :
  Forall (fun piece => Rag.contains sep piece = false) (Rag.split_on sep s).
Proof.
  induction s as [| c s IH]; simpl; [repeat constructor |].
  destruct (Ascii.eqb c sep) eqn:E.
  - constructor; [reflexivity | exact IH].
  - destruct (Rag.split_on sep s) as [| p ps].
    + constructor; [simpl; rewrite E; reflexivity | constructor].
    + inversion IH as [| ? ? Hp Hps]; subst.
      constructor; [simpl; rewrite E, Hp; reflexivity | exact Hps].
Qed.

(** With at least two pieces, what precedes the last piece of a join
    ends with the separator. *)
Lemma join_ends_with_sep_last (sep : string) (x y : string) (l : list string) :
  exists parent,
    String.concat sep (x :: y :: l) = (parent ++ sep) ++ last (y :: l) "".
Proof.
  revert x y. induction l as [| z l IH]; intros x y.
  - exists x. simpl. rewrite string_app_assoc. reflexivity.
  - destruct (IH y z) as [parent Hparent].
    exists (x ++ sep ++ parent).
    change (String.concat sep (x :: y :: z :: l))
      with (x ++ sep ++ String.concat sep (y :: z :: l)).
    change (last (y :: z :: l) "") with (last (z :: l) "").
    rewrite Hparent, !string_app_assoc. reflexivity.
Qed.

(** A string with a separator splits into at least two pieces. *)
Lemma split_on_two (sep : ascii) (s : string) :
  Rag.contains sep s = true ->
  exists x y l, Rag.split_on sep s = x :: y :: l.
Proof.
  intros Hsep.
  pose proof (split_on_join sep s) as Hjoin.
  pose proof (split_on_pieces sep s) as Hpieces.
  destruct (Rag.split_on sep s) as [| x [| y l]].
  - simpl in Hjoin. subst s. discriminate Hsep.
  - simpl in Hjoin. subst s. inversion Hpieces; congruence.
  - exists x, y, l. reflexivity.
Qed.

Lemma contains_sep (sep : ascii) (d rest : string) :
  Rag.contains sep (d ++ String sep rest) = true.
Proof.
  induction d as [| c d IH]; simpl.
  - rewrite Ascii.eqb_refl. reflexivity.
  - rewrite IH. apply orb_true_r.
Qed.

Lemma split_on_whole (sep : ascii) (s : string) :
  Rag.contains sep s = false -> Rag.split_on sep s = [s].
Proof.
  induction s as [| c s IH]; simpl; [reflexivity |].
  destruct (Ascii.eqb c sep); simpl; [discriminate |].
  intros Hs. rewrite (IH Hs). reflexivity.
Qed.

Lemma split_on_last (sep : ascii) (d name : string) :
  Rag.contains sep name = false ->
  last (Rag.split_on sep (d ++ String sep name)) "" = name.
Proof.
  intros Hname. induction d as [| c d IH].
  - simpl. rewrite Ascii.eqb_refl, (split_on_whole sep name Hname). reflexivity.
  - destruct (split_on_two sep _ (contains_sep sep d name)) as [x [y [l Hxy]]].
    change ((String c d) ++ String sep name) with (String c (d ++ String sep name)).
    simpl Rag.split_on. rewrite Hxy in *.
    destruct (Ascii.eqb c sep); exact IH.
Qed.

(** X13.  The file name shown in a citation is the part of the stored
    source after its last slash.  It contains no slash, and what
    [source_name] cuts off in front of it is nothing at all or a
    directory prefix ending in a slash; so a slash-free name comes back
    as it is, and from behind any directory prefix. *)
Theorem source_name_is_the_file_name :
  (forall source : string,
      Rag.contains "/" (Rag.source_name source) = false
      /\ exists directory,
          source = directory ++ Rag.source_name source
          /\ (directory = "" \/ exists parent, directory = parent ++ "/"))
  /\ (forall directory name : string,
         Rag.contains "/" name = false ->
         Rag.source_name name = name
         /\ Rag.source_name (directory ++ "/" ++ name) = name).
Proof.
  split.
  - intros source. unfold Rag.source_name.
    destruct (Rag.contains "/" source) eqn:E.
    + destruct (split_on_two "/" source E) as [x [y [l Hsplit]]].
      split.
      * pose proof (split_on_pieces "/" source) as Hall.
        rewrite Forall_forall in Hall. apply Hall.
        rewrite Hsplit.
        rewrite (app_removelast_last "" (l := x :: y :: l)) at 2 by discriminate.
        apply in_or_app. right. left. reflexivity.
      * destruct (join_ends_with_sep_last "/" x y l) as [parent Hparent].
        exists (parent ++ "/"). split; [| right; exists parent; reflexivity].
        rewrite Hsplit.
        change (last (x :: y :: l) "") with (last (y :: l) "").
        rewrite <- Hparent, <- Hsplit. symmetry. apply split_on_join.
    + split; [exact E |]. exists "". split; [reflexivity | left; reflexivity].
  - intros directory name Hname. unfold Rag.source_name. split.
    + rewrite Hname. reflexivity.
    + change ("/" ++ name) with (String "/" name).
      rewrite contains_sep. apply split_on_last, Hname.
Qed.

Lemma source_name_is_the_file_name_witness :
  Rag.contains "/" "a.pdf" = false
  /\ Rag.source_name "a.pdf" = "a.pdf"
  /\ Rag.source_name "data/docs/a.pdf" = "a.pdf".
Proof.
  split; [reflexivity |].
  exact (proj2 source_name_is_the_file_name "data/docs" "a.pdf" eq_refl).
Defined.

Lemma join_contains (sep : string) (l : list string) (x : string) :
  In x l -> exists front back, String.concat sep l = front ++ x ++ back.
Proof.
  induction l as [| y l IH]; intros Hin; [contradiction |].
  destruct l as [| z l].
  - destruct Hin as [-> | []]. exists "", "". simpl.
    rewrite string_app_nil_r. reflexivity.
  - change (String.concat sep (y :: z :: l))
      with (y ++ sep ++ String.concat sep (z :: l)).
    destruct Hin as [-> | Hin].
    + exists "", (sep ++ String.concat sep (z :: l)). reflexivity.
    + destruct (IH Hin) as [front [back Hfb]].
      exists (y ++ sep ++ front), back.
      rewrite Hfb, !string_app_assoc. reflexivity.
Qed.

Lemma enumerate_In {A : Type} (start : nat) (l : list A) (x : A) :
  In x l -> exists i, In (i, x) (Rag.enumerate start l).
Proof.
  revert start. induction l as [| y l IH]; intros start Hin; [contradiction |].
  destruct Hin as [-> | Hin].
  - exists start. left. reflexivity.
  - destruct (IH (S start) Hin) as [i Hi]. exists i. right. exact Hi.
Qed.

(** X14.  [format_chunks] loses no text: the formatted context contains
    the whole text of every chunk it is given, whatever the labels. *)
Theorem format_chunks_keeps_every_text
    (no_information source_word page_word : string)
    (chunks : list Document) (chunk : Document) :
  In chunk chunks ->
  exists front back,
    Rag.format_chunks no_information source_word page_word chunks
    = front ++ page_content chunk ++ back.
Proof.
  intros Hin. unfold Rag.format_chunks.
  destruct chunks as [| c0 cs]; [contradiction |].
  destruct (enumerate_In 1 (c0 :: cs) chunk Hin) as [i Hi].
  assert (Hpart : In (Rag.format_part source_word page_word i chunk)
    (map (fun ic => Rag.format_part source_word page_word (fst ic) (snd ic))
         (Rag.enumerate 1 (c0 :: cs)))).
  { apply in_map_iff. exists (i, chunk). split; [reflexivity | exact Hi]. }
  destruct (join_contains
              (Rag.newline ++ Rag.newline ++ "---" ++ Rag.newline ++ Rag.newline)
              _ _ Hpart) as [front [back Hfb]].
  rewrite Hfb. unfold Rag.format_part.
  rewrite !string_app_assoc.
  rewrite <- (string_app_assoc _ (page_content chunk) back).
  eexists. exists back. reflexivity.
Qed.

Lemma format_chunks_keeps_every_text_witness :
  In StubFiles.page_b [StubFiles.page_a; StubFiles.page_b]
  /\ exists front back,
      Rag.format_chunks "none" "Source" "p." [StubFiles.page_a; StubFiles.page_b]
      = front ++ "loan terms" ++ back.
Proof.
  assert (H : In StubFiles.page_b [StubFiles.page_a; StubFiles.page_b])
    by (right; left; reflexivity).
  split; [exact H |].
  exact (format_chunks_keeps_every_text "none" "Source" "p."
           [StubFiles.page_a; StubFiles.page_b] StubFiles.page_b H).
Defined.

End FormatProperties.

(** ** Loading and reindexing *)

Section LoadingProperties.
Import Stub StubFiles.

Lemma load_files_raises {F : Loaders} (files : list string)
    (pages : list Document) (file : string) (e : exn) :
  In file files -> pdf_load file = Raise e ->
  exists e', Indexer.load_files files pages = Raise e'.
Proof.
  revert pages. induction files as [| f files IH]; intros pages Hin Hraise;
    [contradiction |].
  simpl. destruct (pdf_load f) as [loaded | e0] eqn:Hf; simpl.
  - destruct Hin as [-> | Hin]; [congruence |].
    exact (IH (pages ++ loaded) Hin Hraise).
  - exists e0. reflexivity.
Qed.

(** X15.  [reindex_all] of [indexer.py] gives up as a whole: it returns
    [None] when the data directory is missing, and also when a single
    PDF file of the directory cannot be loaded, whatever the other files
    hold. *)
Theorem reindex_all_needs_every_file {L : Libraries} {F : Loaders}
    (DATA_DIR : string) :
  (path_exists DATA_DIR = false -> Indexer.reindex_all DATA_DIR = None)
  /\ (forall (file : string) (e : exn),
         path_exists DATA_DIR = true ->
         In file (glob_pdf DATA_DIR) -> pdf_load file = Raise e ->
         Indexer.reindex_all DATA_DIR = None).
Proof.
  unfold Indexer.reindex_all, Indexer.load_pdf_documents. split.
  - intros Hmissing. rewrite Hmissing. reflexivity.
  - intros file e Hexists Hin Hraise. rewrite Hexists. simpl.
    destruct (load_files_raises (glob_pdf DATA_DIR) [] file e Hin Hraise)
      as [e' He'].
    rewrite He'. reflexivity.
Qed.

Lemma reindex_all_needs_every_file_witness :
  (path_exists "nowhere" = false -> Indexer.reindex_all "nowhere" = None)
  /\ path_exists "data" = true
  /\ In "data/broken.pdf"%string (glob_pdf "data")
  /\ pdf_load "data/broken.pdf" = Raise (ProviderError "unreadable")
  /\ Indexer.reindex_all "data" = None.
Proof.
  split;
    [exact (proj1 (@reindex_all_needs_every_file Stub.libraries
                     StubFiles.loaders "nowhere"%string)) |].
  split; [reflexivity |].
  assert (Hin : In "data/broken.pdf"%string (glob_pdf "data"))
    by (right; left; reflexivity).
  split; [exact Hin |]. split; [reflexivity |].
  exact (proj2 (@reindex_all_needs_every_file Stub.libraries
                  StubFiles.loaders "data"%string)
           "data/broken.pdf"%string (ProviderError "unreadable")
           eq_refl Hin eq_refl).
Defined.

(** X16.  A store [reindex_all] of [indexer.py] returns was built from
    pages that all loaded: when the result is the local store, its
    documents are exactly the split chunks of the loaded pages, there is
    at least one, and its rows are aligned with them. *)
Theorem reindex_all_indexes_the_chunks {L : Libraries} {F : Loaders}
    (DATA_DIR : string) (store : LocalVectorStore.t) :
  Indexer.reindex_all DATA_DIR = Some (Local store) ->
  exists pages,
    Indexer.load_pdf_documents DATA_DIR = Ok pages
    /\ pages <> []
    /\ LocalVectorStore.documents store = split_pages pages
    /\ LocalVectorStore.documents store <> []
    /\ aligned store.
Proof.
  unfold Indexer.reindex_all, Indexer.split_documents.
  destruct (Indexer.load_pdf_documents DATA_DIR) as [pages | e];
    [| discriminate].
  destruct pages as [| p pages]; [discriminate |].
  destruct (split_pages (p :: pages)) as [| c chunks] eqn:Hsplit;
    [discriminate |].
  unfold create_vector_store.
  destruct (from_documents (c :: chunks)); [discriminate |].
  unfold LocalVectorStore.add_documents_call.
  destruct (fit_rejects (map page_content (c :: chunks))); [discriminate |].
  simpl. intros Hsome. inversion Hsome; subst store. clear Hsome.
  exists (p :: pages). split; [reflexivity |]. split; [discriminate |].
  split; [rewrite Hsplit; reflexivity |]. split; [discriminate |].
  apply add_documents_aligned.
Qed.

Lemma reindex_all_indexes_the_chunks_witness :
  Indexer.reindex_all "good"
  = Some (Local (LocalVectorStore.add_documents LocalVectorStore.init
                   [page_a; page_b]))
  /\ exists pages,
      Indexer.load_pdf_documents "good" = Ok pages
      /\ pages <> []
      /\ [page_a; page_b] = split_pages pages
      /\ [page_a; page_b] <> []
      /\ aligned (LocalVectorStore.add_documents LocalVectorStore.init
                    [page_a; page_b]).
Proof.
  split; [reflexivity |].
  exact (@reindex_all_indexes_the_chunks Stub.libraries StubFiles.loaders
           "good"%string
           (LocalVectorStore.add_documents LocalVectorStore.init [page_a; page_b])
           eq_refl).
Defined.

(** X17.  A store [reindex_all] of [indexer_with_json.py] returns holds
    the split PDF chunks first and the question-answer documents of the
    JSON file after them, at least one in all, with aligned rows, and
    the fit accepted their texts.  With no PDF page, the JSON documents
    alone give the index when the fit accepts them, and [None] when it
    rejects them. *)
Theorem json_reindex_joins_both_sources {L : Libraries} {F : Loaders}
    (DATA_DIR : string) :
  (forall store,
      IndexerWithJson.reindex_all DATA_DIR = Some store ->
      exists pdf_pages json_chunks,
        Indexer.load_pdf_documents DATA_DIR = Ok pdf_pages
        /\ IndexerWithJson.load_json_documents
             (DATA_DIR ++ "/sberbank_help_documents.json") = Ok json_chunks
        /\ LocalVectorStore.documents store
           = match pdf_pages with
             | [] => []
             | _ :: _ => split_pages pdf_pages
             end ++ json_chunks
        /\ LocalVectorStore.documents store <> []
        /\ fit_rejects (map page_content (LocalVectorStore.documents store))
           = false
        /\ aligned store)
  /\ (forall json_chunks,
         Indexer.load_pdf_documents DATA_DIR = Ok [] ->
         IndexerWithJson.load_json_documents
           (DATA_DIR ++ "/sberbank_help_documents.json") = Ok json_chunks ->
         json_chunks <> [] ->
         IndexerWithJson.reindex_all DATA_DIR
         = if fit_rejects (map page_content json_chunks) then None
           else Some (LocalVectorStore.add_documents LocalVectorStore.init
                        json_chunks)).
Proof.
  unfold IndexerWithJson.reindex_all, Indexer.split_documents,
    IndexerWithJson.create_vector_store, LocalVectorStore.add_documents_call.
  split.
  - intros store.
    destruct (Indexer.load_pdf_documents DATA_DIR) as [pdf_pages | e];
      [| discriminate].
    destruct (IndexerWithJson.load_json_documents
                (DATA_DIR ++ "/sberbank_help_documents.json"))
      as [json_chunks | e]; [| discriminate].
    destruct (_ ++ json_chunks) as [| c chunks] eqn:Hall; [discriminate |].
    destruct (fit_rejects (map page_content (c :: chunks))) eqn:Hfit;
      [discriminate |].
    intros Hsome. inversion Hsome; subst store. clear Hsome.
    exists pdf_pages, json_chunks.
    split; [reflexivity |]. split; [reflexivity |].
    split; [simpl; rewrite <- Hall; reflexivity |].
    split; [discriminate |].
    split; [exact Hfit | apply add_documents_aligned].
  - intros json_chunks Hpdf Hjson Hne. rewrite Hpdf, Hjson. simpl.
    destruct json_chunks as [| c chunks]; [contradiction |].
    destruct (fit_rejects (map page_content (c :: chunks))); reflexivity.
Qed.

Lemma json_reindex_joins_both_sources_witness :
  IndexerWithJson.reindex_all "good"
  = Some (LocalVectorStore.add_documents LocalVectorStore.init
            [page_a; page_b; answer])
  /\ exists pdf_pages json_chunks,
      Indexer.load_pdf_documents "good" = Ok pdf_pages
      /\ IndexerWithJson.load_json_documents
           "good/sberbank_help_documents.json" = Ok json_chunks
      /\ [page_a; page_b; answer]
         = match pdf_pages with
           | [] => []
           | _ :: _ => split_pages pdf_pages
           end ++ json_chunks
      /\ [page_a; page_b; answer] <> []
      /\ fit_rejects (map page_content [page_a; page_b; answer]) = false
      /\ aligned (LocalVectorStore.add_documents LocalVectorStore.init
                    [page_a; page_b; answer]).
Proof.
  split; [reflexivity |].
  exact (proj1 (@json_reindex_joins_both_sources Stub.libraries StubFiles.loaders
                  "good"%string)
           (LocalVectorStore.add_documents LocalVectorStore.init
              [page_a; page_b; answer]) eq_refl).
Defined.

(** X18.  [load_pdf_documents] of [indexer_with_local_embeddings.py]
    isolates failures: the result is the pages of the files that load,
    in file order, and a file that raises contributes nothing and stops
    nothing; so every page of every readable file is loaded. *)
Theorem embedding_loader_skips_unreadable_files {F : Loaders}
    (data_dir : string) :
  IndexerWithLocalEmbeddings.load_pdf_documents data_dir
  = flat_map (fun file => match pdf_load file with
                          | Ok documents => documents
                          | Raise _ => []
                          end)
             (glob_pdf data_dir)
  /\ forall file documents page,
       In file (glob_pdf data_dir) -> pdf_load file = Ok documents ->
       In page documents ->
       In page (IndexerWithLocalEmbeddings.load_pdf_documents data_dir).
Proof.
  assert (Hgen : forall files acc,
    IndexerWithLocalEmbeddings.load_files files acc
    = acc ++ flat_map (fun file => match pdf_load file with
                                   | Ok documents => documents
                                   | Raise _ => []
                                   end) files).
  { induction files as [| f files IH]; intros acc; simpl.
    - rewrite app_nil_r. reflexivity.
    - destruct (pdf_load f) as [documents | e]; rewrite IH.
      + rewrite app_assoc. reflexivity.
      + reflexivity. }
  assert (Heq : IndexerWithLocalEmbeddings.load_pdf_documents data_dir
    = flat_map (fun file => match pdf_load file with
                            | Ok documents => documents
                            | Raise _ => []
                            end) (glob_pdf data_dir)).
  { unfold IndexerWithLocalEmbeddings.load_pdf_documents. apply Hgen. }
  split; [exact Heq |].
  intros file documents page Hfile Hload Hpage.
  rewrite Heq. apply in_flat_map. exists file. split; [exact Hfile |].
  rewrite Hload. exact Hpage.
Qed.

Lemma embedding_loader_skips_unreadable_files_witness :
  In "data/b.pdf"%string (glob_pdf "data")
  /\ pdf_load "data/b.pdf" = Ok [page_b]
  /\ In page_b [page_b]
  /\ In page_b (IndexerWithLocalEmbeddings.load_pdf_documents "data").
Proof.
  assert (Hin : In "data/b.pdf"%string (glob_pdf "data"))
    by (right; right; left; reflexivity).
  split; [exact Hin |]. split; [reflexivity |].
  split; [left; reflexivity |].
  exact (proj2 (@embedding_loader_skips_unreadable_files StubFiles.loaders
                  "data"%string)
           "data/b.pdf"%string [page_b] page_b Hin eq_refl
           (or_introl eq_refl)).
Defined.

End LoadingProperties.

(** ** What the keyword searches do not depend on *)

Section QueryInsensitivity.
Import Stub.

Lemma lower_char_idempotent (c : ascii) :
  Str.lower_char (Str.lower_char c) = Str.lower_char c.
Proof.
  destruct c as [b0 b1 b2 b3 b4 b5 b6 b7].
  destruct b0, b1, b2, b3, b4, b5, b6, b7; reflexivity.
Qed.

Lemma lower_idempotent (s : string) : Str.lower (Str.lower s) = Str.lower s.
Proof.
  induction s as [| c s IH]; simpl; [reflexivity |].
  rewrite lower_char_idempotent, IH. reflexivity.
Qed.

(** X19.  Both keyword searches ignore the case of the query: lowering
    the query beforehand changes no result. *)
Theorem keyword_search_ignores_query_case {L : Libraries}
    (query : string) (k : Z) :
  (forall self : LocalVectorStore.t,
      LocalVectorStore.keyword_search self (Str.lower query) k
      = LocalVectorStore.keyword_search self query k)
  /\ (forall self : LocalEmbeddingVectorStore.t,
         LocalEmbeddingVectorStore.keyword_search self (Str.lower query) k
         = LocalEmbeddingVectorStore.keyword_search self query k).
Proof.
  split; intros self.
  - unfold LocalVectorStore.keyword_search.
    rewrite lower_idempotent. reflexivity.
  - unfold LocalEmbeddingVectorStore.keyword_search.
    rewrite lower_idempotent. reflexivity.
Qed.

Lemma long_word_score_perm (content : string) (ws ws' : list string) :
  Permutation ws ws' ->
  Spec.score content (filter long_word ws)
  = Spec.score content (filter long_word ws').
Proof.
  induction 1 as [| x l l' Hperm IH | x y l | l l' l'' H1 IH1 H2 IH2]; simpl.
  - reflexivity.
  - destruct (long_word x); simpl; rewrite IH; reflexivity.
  - destruct (long_word x), (long_word y); simpl; lia.
  - congruence.
Qed.

Lemma filter_length_perm {A : Type} (f : A -> bool) (l l' : list A) :
  Permutation l l' -> List.length (filter f l) = List.length (filter f l').
Proof.
  induction 1 as [| x l l' Hperm IH | x y l | l l' l'' H1 IH1 H2 IH2]; simpl.
  - reflexivity.
  - destruct (f x); simpl; rewrite IH; reflexivity.
  - destruct (f x), (f y); reflexivity.
  - congruence.
Qed.

(** X20.  Both keyword searches ignore the order of the query words: two
    queries whose lowercase words are the same up to order get the same
    result. *)
Theorem keyword_search_ignores_word_order {L : Libraries}
    (query query' : string) (k : Z) :
  Permutation (Str.split (Str.lower query)) (Str.split (Str.lower query')) ->
  (forall self : LocalVectorStore.t,
      LocalVectorStore.keyword_search self query k
      = LocalVectorStore.keyword_search self query' k)
  /\ (forall self : LocalEmbeddingVectorStore.t,
         LocalEmbeddingVectorStore.keyword_search self query k
         = LocalEmbeddingVectorStore.keyword_search self query' k).
Proof.
  intros Hperm. split; intros self.
  - unfold LocalVectorStore.keyword_search.
    destruct (LocalVectorStore.documents self) as [| d docs]; [reflexivity |].
    assert (Hscore : forall content,
      LocalVectorStore.keyword_score content (Str.split (Str.lower query))
      = LocalVectorStore.keyword_score content (Str.split (Str.lower query'))).
    { intros content. rewrite !keyword_score_long_words.
      apply long_word_score_perm, Hperm. }
    assert (Hscored :
      LocalVectorStore.scored_docs (d :: docs) (Str.split (Str.lower query))
      = LocalVectorStore.scored_docs (d :: docs) (Str.split (Str.lower query'))).
    { unfold LocalVectorStore.scored_docs. apply flat_map_ext.
      intros doc. rewrite Hscore. reflexivity. }
    rewrite Hscored. reflexivity.
  - unfold LocalEmbeddingVectorStore.keyword_search.
    destruct (LocalEmbeddingVectorStore.documents self) as [| d docs];
      [reflexivity |].
    assert (Hsets : Permutation
      (LocalEmbeddingVectorStore.word_set (Str.split (Str.lower query)))
      (LocalEmbeddingVectorStore.word_set (Str.split (Str.lower query')))).
    { unfold LocalEmbeddingVectorStore.word_set.
      apply NoDup_Permutation; try apply NoDup_nodup.
      intros w. rewrite !nodup_In. split; intros Hw.
      - exact (Permutation_in _ Hperm Hw).
      - exact (Permutation_in _ (Permutation_sym Hperm) Hw). }
    assert (Hoverlap : forall content_words,
      LocalEmbeddingVectorStore.overlap
        (LocalEmbeddingVectorStore.word_set (Str.split (Str.lower query)))
        content_words
      = LocalEmbeddingVectorStore.overlap
          (LocalEmbeddingVectorStore.word_set (Str.split (Str.lower query')))
          content_words).
    { intros content_words. unfold LocalEmbeddingVectorStore.overlap.
      f_equal. apply filter_length_perm, Hsets. }
    f_equal. f_equal. f_equal. f_equal.
    apply map_ext. intros doc. rewrite Hoverlap. reflexivity.
Qed.

Lemma keyword_search_ignores_word_order_witness :
  Permutation (Str.split (Str.lower "loan Card"))
              (Str.split (Str.lower "card LOAN"))
  /\ LocalVectorStore.keyword_search
       (LocalVectorStore.add_documents LocalVectorStore.init
          [Sample.loan; Sample.card1]) "loan Card" 3
     = LocalVectorStore.keyword_search
         (LocalVectorStore.add_documents LocalVectorStore.init
            [Sample.loan; Sample.card1]) "card LOAN" 3.
Proof.
  assert (H : Permutation (Str.split (Str.lower "loan Card"))
                          (Str.split (Str.lower "card LOAN")))
    by apply perm_swap.
  split; [exact H |].
  exact (proj1 (@keyword_search_ignores_word_order Stub.libraries
                  "loan Card"%string "card LOAN"%string 3%Z H)
           (LocalVectorStore.add_documents LocalVectorStore.init
              [Sample.loan; Sample.card1])).
Defined.

End QueryInsensitivity.

(** * Tie order, the local fallback and chunks without text *)

(** ** Sorted permutations agree on their scores *)

Section SortedScores.

Lemma Forall2_Qeq_refl (l : list Q) : Forall2 Qeq l l.
Proof. induction l; constructor; [apply Qeq_refl | assumption]. Qed.

Lemma Forall2_Qeq_trans (l1 l2 l3 : list Q) :
  Forall2 Qeq l1 l2 -> Forall2 Qeq l2 l3 -> Forall2 Qeq l1 l3.
Proof.
  intros H. revert l3. induction H as [| a b l1 l2 Hab Hrest IH]; intros l3 H'.
  - inversion H'. constructor.
  - inversion H' as [| ? c ? l3' Hbc Hrest']; subst.
    constructor; [eapply Qeq_trans; eassumption | apply IH; exact Hrest'].
Qed.

Lemma Forall_Qle_replace (a b : Q) (l l' : list Q) :
  (a == b)%Q -> Forall2 Qeq l l' -> Forall (Qle a) l -> Forall (Qle b) l'.
Proof.
  intros Hab H. induction H as [| x y l l' Hxy Hrest IH]; intros Hall;
    [constructor |].
  inversion Hall as [| ? ? Hax Hall']; subst.
  constructor; [rewrite <- Hab, <- Hxy; exact Hax | exact (IH Hall')].
Qed.

Lemma sorted_replace (l l' : list Q) :
  Forall2 Qeq l l' -> StronglySorted Qle l -> StronglySorted Qle l'.
Proof.
  induction 1 as [| x y l l' Hxy Hrest IH]; intros Hs; [constructor |].
  inversion Hs as [| ? ? Hsl Hx]; subst.
  constructor; [exact (IH Hsl) | exact (Forall_Qle_replace x y l l' Hxy Hrest Hx)].
Qed.

Lemma sorted_head_le (x : Q) (l : list Q) (y : Q) :
  StronglySorted Qle (x :: l) -> In y (x :: l) -> (x <= y)%Q.
Proof.
  intros Hs Hy. inversion Hs as [| ? ? _ Hx]; subst.
  destruct Hy as [<- | Hy]; [apply Qle_refl |].
  rewrite Forall_forall in Hx. exact (Hx y Hy).
Qed.

(** Two ascending arrangements of the same scores agree place by place,
    up to the equality of rationals. *)
Lemma sorted_perm_Qeq (l1 l2 : list Q) :
  Permutation l1 l2 -> StronglySorted Qle l1 -> StronglySorted Qle l2 ->
  Forall2 Qeq l1 l2.
Proof.
  revert l2. induction l1 as [| x t1 IH]; intros l2 Hp H1 H2.
  - apply Permutation_nil in Hp. subst. constructor.
  - destruct l2 as [| y t2];
      [apply Permutation_sym, Permutation_nil in Hp; discriminate |].
    assert (Hxy : (x == y)%Q).
    { apply Qle_antisym.
      - apply (sorted_head_le x t1 y H1).
        apply (Permutation_in _ (Permutation_sym Hp)). left. reflexivity.
      - apply (sorted_head_le y t2 x H2).
        apply (Permutation_in _ Hp). left. reflexivity. }
    constructor; [exact Hxy |].
    inversion H1 as [| ? ? Ht1 _]; subst.
    inversion H2 as [| ? ? Ht2 _]; subst.
    assert (Hx : In x (y :: t2)) by (apply (Permutation_in _ Hp); left; reflexivity).
    destruct Hx as [-> | Hx].
    + apply IH; [exact (Permutation_cons_inv Hp) | exact Ht1 | exact Ht2].
    + destruct (in_split x t2 Hx) as [u [v ->]].
      assert (Hswap : Forall2 Qeq (u ++ y :: v) (u ++ x :: v)).
      { apply Forall2_app; [apply Forall2_Qeq_refl |].
        constructor; [symmetry; exact Hxy | apply Forall2_Qeq_refl]. }
      apply (Forall2_Qeq_trans _ (u ++ y :: v)); [| exact Hswap].
      apply IH; [| exact Ht1 |].
      * apply (Permutation_cons_app_inv (y :: u) v) in Hp.
        rewrite Hp. simpl. apply Permutation_middle.
      * apply (sorted_replace (u ++ x :: v)); [| exact Ht2].
        apply Forall2_app; [apply Forall2_Qeq_refl |].
        constructor; [exact Hxy | apply Forall2_Qeq_refl].
Qed.

Lemma Forall2_map_both {A B : Type} (f : A -> B) (R : B -> B -> Prop)
    (l l' : list A) :
  Forall2 R (map f l) (map f l') -> Forall2 (fun a b => R (f a) (f b)) l l'.
Proof.
  revert l'. induction l as [| a l IH]; intros [| b l'] H; simpl in H;
    inversion H; subst; constructor; [assumption | apply IH; assumption].
Qed.

Lemma Forall2_skipn {A B : Type} (R : A -> B -> Prop) (n : nat)
    (l : list A) (l' : list B) :
  Forall2 R l l' -> Forall2 R (skipn n l) (skipn n l').
Proof.
  intros H. revert n. induction H as [| a b l l' Hab Hrest IH]; intros n.
  - rewrite !skipn_nil. constructor.
  - destruct n as [| n]; simpl; [constructor; assumption | apply IH].
Qed.

Lemma Forall2_rev {A B : Type} (R : A -> B -> Prop) (l : list A) (l' : list B) :
  Forall2 R l l' -> Forall2 R (rev l) (rev l').
Proof.
  induction 1 as [| a b l l' Hab Hrest IH]; simpl; [constructor |].
  apply Forall2_app; [exact IH | constructor; [exact Hab | constructor]].
Qed.

Lemma Forall2_filter {A : Type} (R : A -> A -> Prop) (f : A -> bool)
    (l l' : list A) :
  (forall a b, R a b -> f a = f b) ->
  Forall2 R l l' -> Forall2 R (filter f l) (filter f l').
Proof.
  intros Hf. induction 1 as [| a b l l' Hab Hrest IH]; simpl; [constructor |].
  rewrite <- (Hf a b Hab). destruct (f a); [constructor |]; assumption.
Qed.

Lemma positive_Qeq (x y : Q) : (x == y)%Q -> Py.positive x = Py.positive y.
Proof.
  intros Hxy. unfold Py.positive. f_equal.
  destruct (Qle_bool x 0) eqn:Hx, (Qle_bool y 0) eqn:Hy; try reflexivity.
  - apply Qle_bool_iff in Hx. rewrite Hxy in Hx.
    apply Qle_bool_iff in Hx. congruence.
  - apply Qle_bool_iff in Hy. rewrite <- Hxy in Hy.
    apply Qle_bool_iff in Hy. congruence.
Qed.

(** The stable sort of the model is one of the sorts numpy allows. *)
Lemma argsort_ascending (a : list Q) : Py.ascending a (Py.argsort a).
Proof.
  split; [apply argsort_perm |].
  apply (StronglySorted_weaken (index_before a)); [| apply argsort_sorted].
  intros i j [H | [H _]]; [apply Qlt_le_weak, H | rewrite H; apply Qle_refl].
Qed.

(** So is the sort that leaves equal scores in descending index order. *)
Lemma argsort_ties_reversed_ascending (a : list Q) :
  Py.ascending a (rev (Py.argsort (map Qopp a))).
Proof.
  split.
  - rewrite <- Permutation_rev, argsort_perm, length_map. reflexivity.
  - apply (StronglySorted_weaken (fun i j => index_before (map Qopp a) j i));
      [| apply (StronglySorted_rev (index_before (map Qopp a))), argsort_sorted].
    intros i j Hij.
    assert (Hle : (Py.item (map Qopp a) j <= Py.item (map Qopp a) i)%Q).
    { destruct Hij as [H | [H _]];
        [apply Qlt_le_weak, H | rewrite H; apply Qle_refl]. }
    unfold Py.item in *.
    change 0%Q with (Qopp 0) in Hle. rewrite !map_nth in Hle.
    apply Qopp_le_compat in Hle. rewrite !Qopp_involutive in Hle. exact Hle.
Qed.

Lemma ascending_bound (a : list Q) (order : list nat) (i : nat) :
  Py.ascending a order -> In i order -> i < List.length a.
Proof.
  intros [Hperm _] Hi. apply (Permutation_in _ Hperm) in Hi.
  apply in_seq in Hi. lia.
Qed.

(** Whatever the order among ties, the scores come out the same. *)
Lemma ascending_scores_agree (a : list Q) (order order' : list nat) :
  Py.ascending a order -> Py.ascending a order' ->
  Forall2 (fun i i' => (Py.item a i == Py.item a i')%Q) order order'.
Proof.
  intros [Hperm Hsorted] [Hperm' Hsorted'].
  apply (Forall2_map_both (Py.item a) Qeq).
  apply sorted_perm_Qeq.
  - apply Permutation_map. rewrite Hperm, Hperm'. reflexivity.
  - clear - Hsorted. induction Hsorted as [| i l Hs IH Hi]; simpl; constructor;
      [exact IH | apply Forall_map; exact Hi].
  - clear - Hsorted'. induction Hsorted' as [| i l Hs IH Hi]; simpl; constructor;
      [exact IH | apply Forall_map; exact Hi].
Qed.

End SortedScores.

(** ** C2: the order among equal scores *)

Section TieOrder.
Import Stub.

(** The rows a search selects when the sort is left open. *)
Lemma similarity_search_by_spec {L : Libraries} (argsort : list Q -> list nat)
    (self : LocalVectorStore.t) (query : string) (k : Z) :
  (forall a, Py.ascending a (argsort a)) -> aligned self ->
  let sims := LocalVectorStore.similarities self query in
  exists r,
    LocalVectorStore.similarity_search_by argsort self query k = Ok r
    /\ Forall2 (fun i d => nth_error (LocalVectorStore.documents self) i = Some d)
               (filter (fun i => Py.positive (Py.item sims i))
                       (rev (Py.slice_from (- k) (argsort sims)))) r.
Proof.
  intros Hsort Hal sims. subst sims.
  unfold LocalVectorStore.similarity_search_by, LocalVectorStore.similarities.
  unfold aligned in Hal.
  assert (Hnil : forall k', rev (Py.slice_from k' (argsort [])) = []).
  { intros k'. destruct (argsort []) as [| i l] eqn:E.
    - unfold Py.slice_from. rewrite skipn_nil. reflexivity.
    - pose proof (ascending_bound [] (argsort []) i (Hsort [])) as Hb.
      rewrite E in Hb. specialize (Hb (or_introl eq_refl)). simpl in Hb. lia. }
  destruct (LocalVectorStore.embeddings self) as [emb |] eqn:Hemb.
  - destruct Hal as [Hfit Hlen].
    destruct (LocalVectorStore.vectorizer self) as [f |] eqn:Hvec; [| congruence].
    destruct (Nat.eqb_spec (List.length (LocalVectorStore.documents self)) 0)
      as [Hz | Hnz].
    + exists []. split; [reflexivity |].
      destruct emb; [| simpl in Hlen; lia].
      simpl. rewrite Hnil. constructor.
    + apply collect_spec. intros i Hi.
      apply in_rev, slice_from_incl in Hi.
      apply (ascending_bound _ _ _ (Hsort _)) in Hi.
      rewrite length_map in Hi. lia.
  - exists []. split; [reflexivity |].
    destruct (LocalVectorStore.vectorizer self); rewrite Hnil; constructor.
Qed.

(** With the sort of the model it is [similarity_search]. *)
Lemma similarity_search_by_argsort {L : Libraries}
    (self : LocalVectorStore.t) (query : string) (k : Z) :
  LocalVectorStore.similarity_search_by Py.argsort self query k
  = LocalVectorStore.similarity_search self query k.
Proof. reflexivity. Qed.

Lemma lookup_bound {A : Type} (l : list A) (idxs : list nat) (r : list A) :
  Forall2 (fun i d => nth_error l i = Some d) idxs r ->
  Forall (fun i => i < List.length l) idxs.
Proof.
  induction 1 as [| i d idxs r Hid Hrest IH]; constructor; [| exact IH].
  apply nth_error_Some. congruence.
Qed.

(** C2 (as amended).  A search on the TF-IDF store returns chunks of
    positive similarity in non-increasing order of similarity.  The code
    has no tie-break of its own: the order among chunks of equal
    similarity is the one numpy's [argsort] leaves, read backwards, and
    the default sort promises none.  What does not depend on the sort is
    the sequence of similarities of the returned chunks; and when no two
    rows of positive similarity tie, the returned sequence itself. *)
Theorem similarity_search_orders_by_score_only {L : Libraries}
    (argsort argsort' : list Q -> list nat)
    (before : LocalVectorStore.t) (chunks : list Document)
    (query : string) (k : Z) :
  (forall a, Py.ascending a (argsort a)) ->
  (forall a, Py.ascending a (argsort' a)) ->
  let self := LocalVectorStore.add_documents before chunks in
  let sims := LocalVectorStore.similarities self query in
  exists (idxs idxs' : list nat) (r r' : list Document),
    LocalVectorStore.similarity_search_by argsort self query k = Ok r
    /\ LocalVectorStore.similarity_search_by argsort' self query k = Ok r'
    /\ Forall2 (fun i d => nth_error chunks i = Some d) idxs r
    /\ Forall2 (fun i d => nth_error chunks i = Some d) idxs' r'
    /\ Forall (fun i => (0 < Py.item sims i)%Q) idxs
    /\ StronglySorted (fun i j => (Py.item sims j <= Py.item sims i)%Q) idxs
    /\ Forall2 (fun i i' => (Py.item sims i == Py.item sims i')%Q) idxs idxs'
    /\ ((forall i j,
            i < j -> j < List.length chunks -> (0 < Py.item sims i)%Q ->
            ~ (Py.item sims i == Py.item sims j)%Q) ->
        r = r').
Proof.
  intros Hsort Hsort' self sims.
  pose proof (add_documents_aligned before chunks) as Hal.
  destruct (similarity_search_by_spec argsort self query k Hsort Hal)
    as [r [Hr Hall]].
  destruct (similarity_search_by_spec argsort' self query k Hsort' Hal)
    as [r' [Hr' Hall']].
  fold sims in Hall, Hall'. simpl in Hall, Hall'.
  set (idxs := filter (fun i => Py.positive (Py.item sims i))
                 (rev (Py.slice_from (- k) (argsort sims)))) in *.
  set (idxs' := filter (fun i => Py.positive (Py.item sims i))
                  (rev (Py.slice_from (- k) (argsort' sims)))) in *.
  assert (Hpos : Forall (fun i => (0 < Py.item sims i)%Q) idxs).
  { rewrite Forall_forall. intros i Hi. apply filter_In in Hi.
    apply positive_iff, Hi. }
  assert (Hpos' : Forall (fun i => (0 < Py.item sims i)%Q) idxs').
  { rewrite Forall_forall. intros i Hi. apply filter_In in Hi.
    apply positive_iff, Hi. }
  assert (Hagree : Forall2 (fun i i' => (Py.item sims i == Py.item sims i')%Q)
                           idxs idxs').
  { apply (Forall2_filter _ (fun i => Py.positive (Py.item sims i)));
      [intros i i' H; apply positive_Qeq, H |].
    apply Forall2_rev. unfold Py.slice_from.
    rewrite (Permutation_length (proj1 (Hsort sims))),
      (Permutation_length (proj1 (Hsort' sims))).
    apply Forall2_skipn, ascending_scores_agree; [apply Hsort | apply Hsort']. }
  exists idxs, idxs', r, r'.
  split; [exact Hr |]. split; [exact Hr' |].
  split; [exact Hall |]. split; [exact Hall' |].
  split; [exact Hpos |].
  split.
  { apply StronglySorted_filter.
    apply (StronglySorted_rev (fun i j => (Py.item sims i <= Py.item sims j)%Q)).
    apply StronglySorted_skipn, (Hsort sims). }
  split; [exact Hagree |].
  intros Hdistinct.
  assert (Hsame : idxs = idxs').
  { pose proof (lookup_bound _ _ _ Hall) as Hb.
    pose proof (lookup_bound _ _ _ Hall') as Hb'.
    clear - Hagree Hpos Hpos' Hb Hb' Hdistinct.
    induction Hagree as [| i i' l l' Hii Hrest IH]; [reflexivity |].
    inversion Hpos; inversion Hpos'; inversion Hb; inversion Hb'; subst.
    f_equal; [| apply IH; assumption].
    destruct (Nat.lt_trichotomy i i') as [Hlt | [Heq | Hgt]]; [| exact Heq |].
    - exfalso. apply (Hdistinct i i' Hlt); assumption.
    - exfalso. apply (Hdistinct i' i Hgt); [assumption | assumption |].
      symmetry. exact Hii. }
  rewrite <- Hsame in Hall'.
  exact (lookup_functional _ _ _ _ Hall Hall').
Qed.

(** C2 on the stand-in libraries, for two sorts that treat ties in
    opposite ways: "card loan" has a similarity of its own to the query
    "card", so nothing ties among the positive rows. *)
Lemma similarity_search_orders_by_score_only_witness :
  (forall a, Py.ascending a (Py.argsort a))
  /\ (forall a, Py.ascending a (rev (Py.argsort (map Qopp a))))
  /\ exists (idxs idxs' : list nat) (r r' : list Document),
      LocalVectorStore.similarity_search_by Py.argsort
        (LocalVectorStore.add_documents LocalVectorStore.init
           [Sample.chunk "card loan" "9"; Sample.loan; Sample.card1]) "card" 3
      = Ok r
      /\ LocalVectorStore.similarity_search_by
           (fun a => rev (Py.argsort (map Qopp a)))
           (LocalVectorStore.add_documents LocalVectorStore.init
              [Sample.chunk "card loan" "9"; Sample.loan; Sample.card1]) "card" 3
         = Ok r'
      /\ Forall2
           (fun i d =>
              nth_error [Sample.chunk "card loan" "9"; Sample.loan; Sample.card1] i
              = Some d) idxs r
      /\ Forall2
           (fun i d =>
              nth_error [Sample.chunk "card loan" "9"; Sample.loan; Sample.card1] i
              = Some d) idxs' r'
      /\ Forall (fun i => (0 < Py.item [1000000 # 1414213; 0; 1]%Q i)%Q) idxs
      /\ StronglySorted
           (fun i j => (Py.item [1000000 # 1414213; 0; 1]%Q j
                        <= Py.item [1000000 # 1414213; 0; 1]%Q i)%Q) idxs
      /\ Forall2
           (fun i i' => (Py.item [1000000 # 1414213; 0; 1]%Q i
                         == Py.item [1000000 # 1414213; 0; 1]%Q i')%Q) idxs idxs'
      /\ ((forall i j,
              i < j -> j < 3 -> (0 < Py.item [1000000 # 1414213; 0; 1]%Q i)%Q ->
              ~ (Py.item [1000000 # 1414213; 0; 1]%Q i
                 == Py.item [1000000 # 1414213; 0; 1]%Q j)%Q) ->
          r = r').
Proof.
  split; [exact argsort_ascending |].
  split; [exact argsort_ties_reversed_ascending |].
  exact (@similarity_search_orders_by_score_only Stub.libraries
           Py.argsort (fun a => rev (Py.argsort (map Qopp a)))
           LocalVectorStore.init
           [Sample.chunk "card loan" "9"; Sample.loan; Sample.card1]
           "card"%string 3%Z argsort_ascending argsort_ties_reversed_ascending).
Defined.

(** The order among ties is the sort's: on the same index and query the
    two sorts return the two equal chunks in opposite orders. *)
Lemma tie_order_follows_the_sort :
  LocalVectorStore.similarity_search_by Py.argsort
    (LocalVectorStore.add_documents LocalVectorStore.init
       [Sample.card1; Sample.card2; Sample.loan]) "card" 3
  = Ok [Sample.card2; Sample.card1]
  /\ LocalVectorStore.similarity_search_by
       (fun a => rev (Py.argsort (map Qopp a)))
       (LocalVectorStore.add_documents LocalVectorStore.init
          [Sample.card1; Sample.card2; Sample.loan]) "card" 3
     = Ok [Sample.card1; Sample.card2].
Proof. split; reflexivity. Qed.

(** C2 as stated fails.  The chunks of pages 1 and 2 have the same text,
    hence the same similarity to "card"; with a sort that keeps equal
    scores in index order, one of the sorts numpy allows and the one of
    the searches above, page 2, ingested second, is returned first. *)
Lemma equal_scores_come_back_reversed :
  (forall a, Py.ascending a (Py.argsort a))
  /\ LocalVectorStore.similarities
       (LocalVectorStore.add_documents LocalVectorStore.init
          [Sample.card1; Sample.card2; Sample.loan]) "card"
     = [1; 1; 0]%Q
  /\ LocalVectorStore.similarity_search_by Py.argsort
       (LocalVectorStore.add_documents LocalVectorStore.init
          [Sample.card1; Sample.card2; Sample.loan]) "card" 3
     = Ok [Sample.card2; Sample.card1]
  /\ LocalVectorStore.similarity_search
       (LocalVectorStore.add_documents LocalVectorStore.init
          [Sample.card1; Sample.card2; Sample.loan]) "card" 3
     = Ok [Sample.card2; Sample.card1].
Proof. split; [exact argsort_ascending | repeat split]. Qed.

End TieOrder.

(** ** C7 and C8: the local fallback, and chunks without text *)

Section LocalFallback.
Import Stub.

Lemma item_rows (a : list Q) (s : nat) :
  map (fun i => nth (i - s) a 0%Q) (seq s (List.length a)) = a.
Proof.
  revert s. induction a as [| x a IH]; intros s; simpl; [reflexivity |].
  rewrite Nat.sub_diag. f_equal.
  rewrite <- (IH (S s)) at 2. apply map_ext_in.
  intros i Hi. apply in_seq in Hi.
  replace (i - s) with (S (i - S s)) by lia. reflexivity.
Qed.

(** As many rows are ranked positive as there are positive scores. *)
Lemma positive_rows_count (sims : list Q) :
  List.length (filter (fun i => Py.positive (Py.item sims i))
                      (rev (Py.argsort sims)))
  = List.length (filter Py.positive sims).
Proof.
  rewrite (filter_length_perm _ _ (seq 0 (List.length sims))).
  - transitivity
      (List.length
         (filter Py.positive
            (map (fun i => nth (i - 0) sims 0%Q) (seq 0 (List.length sims)))));
      [| rewrite item_rows; reflexivity].
    rewrite filter_map_swap, length_map.
    f_equal. apply filter_ext. intros i. unfold Py.item.
    rewrite Nat.sub_0_r. reflexivity.
  - rewrite <- Permutation_rev. apply argsort_perm.
Qed.

(** What a search on a built index returns, stated on the scores alone. *)
Lemma similarity_search_ranking {L : Libraries}
    (before : LocalVectorStore.t) (chunks : list Document)
    (query : string) (k : Z) :
  (1 <= k)%Z ->
  let self := LocalVectorStore.add_documents before chunks in
  let sims := LocalVectorStore.similarities self query in
  exists (idxs : list nat) (r : list Document),
    LocalVectorStore.similarity_search self query k = Ok r
    /\ Forall2 (fun i d => nth_error chunks i = Some d) idxs r
    /\ NoDup idxs
    /\ Forall (fun i => (0 < Py.item sims i)%Q) idxs
    /\ StronglySorted (fun i j => (Py.item sims j <= Py.item sims i)%Q) idxs
    /\ List.length r
       = Nat.min (Z.to_nat k) (List.length (filter Py.positive sims))
    /\ forall i j,
         In i idxs -> ~ In j idxs -> (Py.item sims j <= Py.item sims i)%Q.
Proof.
  intros Hk self sims.
  pose proof (add_documents_aligned before chunks) as Hal.
  destruct (similarity_search_spec self query k Hal) as [r [Hr Hall]].
  exists (result_indices self query k), r.
  split; [exact Hr |]. split; [exact Hall |].
  pose proof (Forall2_same_length _ _ _ Hall) as Hlen.
  rewrite result_indices_firstn in Hlen |- * by exact Hk. fold sims in Hlen |- *.
  set (ranking := filter (fun i => Py.positive (Py.item sims i))
                         (rev (Py.argsort sims))) in *.
  assert (Hnodup : NoDup (rev (Py.argsort sims))).
  { apply NoDup_rev.
    apply (Permutation_NoDup (Permutation_sym (argsort_perm sims))), seq_NoDup. }
  assert (Hpos : forall i, In i ranking -> (0 < Py.item sims i)%Q).
  { intros i Hi. apply filter_In in Hi. apply positive_iff, Hi. }
  assert (Hsorted : StronglySorted (ranked_before sims) ranking)
    by (apply StronglySorted_filter, descending_sorted).
  assert (Hfirst : forall i, In i (firstn (Z.to_nat k) ranking) -> In i ranking).
  { intros i Hi. rewrite <- (firstn_skipn (Z.to_nat k) ranking).
    apply in_or_app. left. exact Hi. }
  split; [apply NoDup_firstn, NoDup_filter, Hnodup |].
  split; [rewrite Forall_forall; intros i Hi; apply Hpos, Hfirst, Hi |].
  split.
  { apply (StronglySorted_weaken (ranked_before sims));
      [intros i j H; apply ranked_before_le, H |].
    rewrite <- (firstn_skipn (Z.to_nat k) ranking) in Hsorted.
    clear - Hsorted. induction (firstn (Z.to_nat k) ranking) as [| x l IH];
      [constructor |].
    simpl in Hsorted. inversion Hsorted as [| ? ? Hs Hx]; subst.
    constructor; [exact (IH Hs) |].
    rewrite Forall_forall in *. intros y Hy. apply Hx, in_or_app. left. exact Hy. }
  split.
  { rewrite Hlen, length_firstn. unfold ranking.
    rewrite positive_rows_count. reflexivity. }
  intros i j Hi Hnot.
  destruct (Py.positive (Py.item sims j)) eqn:Hj.
  - assert (Hin : In j ranking).
    { apply filter_In. split; [| exact Hj]. apply row_ranked.
      destruct (Nat.lt_ge_cases j (List.length sims)) as [Hlt | Hge];
        [exact Hlt |].
      unfold Py.item in Hj. rewrite nth_overflow in Hj by exact Hge.
      discriminate Hj. }
    destruct (in_firstn_or_skipn (Z.to_nat k) ranking j Hin) as [Hkept | Hout];
      [contradiction |].
    apply ranked_before_le.
    exact (sorted_cut (ranked_before sims) (Z.to_nat k) ranking i j
             Hsorted Hi Hout).
  - apply Qlt_le_weak. apply (Qle_lt_trans _ 0); [| apply Hpos, Hfirst, Hi].
    apply Qle_bool_iff. unfold Py.positive in Hj.
    apply negb_false_iff in Hj. exact Hj.
Qed.

(** C7 (as amended).  When the remote embedding path raises, whatever
    the exception, [create_vector_store] turns to the local TF-IDF store
    and to nothing else.  If the TF-IDF fit accepts the chunks' texts,
    the local store is returned, built from all the chunks by one fit,
    and its retriever answers from the TF-IDF rows alone: for [k >= 1]
    it returns, read at pairwise distinct rows and in non-increasing
    order of similarity, [min k p] chunks of positive similarity, [p]
    being the number of rows of positive similarity, and no row left out
    has a higher similarity than a returned one.  If the fit rejects the
    texts, its [ValueError] leaves [create_vector_store]: the handler
    calls [add_documents] without a guard. *)
Theorem create_vector_store_falls_back {L : Libraries}
    (chunks : list Document) (e : exn) :
  from_documents chunks = Raise e ->
  let texts := map page_content chunks in
  let fitted := fit_transform texts in
  let store :=
    {| LocalVectorStore.vectorizer := Some (fst fitted);
       LocalVectorStore.documents := chunks;
       LocalVectorStore.embeddings := Some (snd fitted) |} in
  (fit_rejects texts = true -> create_vector_store chunks = Raise ValueError)
  /\ (fit_rejects texts = false ->
      create_vector_store chunks = Ok (Local store)
      /\ forall (search_kwargs : option Z) (query : string),
           let k := match search_kwargs with Some k => k | None => 3%Z end in
           let sims :=
             map (cosine_similarity (transform (fst fitted) query)) (snd fitted) in
           (1 <= k)%Z ->
           exists (idxs : list nat) (r : list Document),
             LocalVectorStore.as_retriever store search_kwargs query = Ok r
             /\ Forall2 (fun i d => nth_error chunks i = Some d) idxs r
             /\ NoDup idxs
             /\ Forall (fun i => (0 < Py.item sims i)%Q) idxs
             /\ StronglySorted
                  (fun i j => (Py.item sims j <= Py.item sims i)%Q) idxs
             /\ List.length r
                = Nat.min (Z.to_nat k) (List.length (filter Py.positive sims))
             /\ forall i j,
                  In i idxs -> ~ In j idxs ->
                  (Py.item sims j <= Py.item sims i)%Q).
Proof.
  intros Hfail texts fitted store.
  unfold create_vector_store, LocalVectorStore.add_documents_call.
  rewrite Hfail. fold texts. split; intros Hfit; rewrite Hfit; [reflexivity |].
  split; [reflexivity |].
  intros search_kwargs query Hk.
  exact (similarity_search_ranking LocalVectorStore.init chunks query _ Hk).
Qed.

(** C7 on the stand-in libraries, whose remote provider always fails:
    the store is the local one, and its retriever, asked for "card"
    without [search_kwargs], returns the one chunk of positive
    similarity. *)
Lemma create_vector_store_falls_back_witness :
  from_documents [Sample.card1; Sample.loan] = Raise (ProviderError "unreachable")
  /\ fit_rejects (map page_content [Sample.card1; Sample.loan]) = false
  /\ create_vector_store [Sample.card1; Sample.loan]
     = Ok (Local
             {| LocalVectorStore.vectorizer := Some ["card"; "loan"]%string;
                LocalVectorStore.documents := [Sample.card1; Sample.loan];
                LocalVectorStore.embeddings := Some [[1; 0]; [0; 1]]%Q |})
  /\ LocalVectorStore.as_retriever
       {| LocalVectorStore.vectorizer := Some ["card"; "loan"]%string;
          LocalVectorStore.documents := [Sample.card1; Sample.loan];
          LocalVectorStore.embeddings := Some [[1; 0]; [0; 1]]%Q |}
       None "card"
     = Ok [Sample.card1].
Proof.
  split; [reflexivity |]. split; [reflexivity |].
  split; [| reflexivity].
  exact (proj1 (proj2 (@create_vector_store_falls_back Stub.libraries
                         [Sample.card1; Sample.loan] (ProviderError "unreachable")
                         eq_refl) eq_refl)).
Defined.

(** C7 as stated fails: the remote provider is unreachable and the one
    chunk holds no term, so the fit of the fallback raises and
    [create_vector_store] raises with it; the failure is not recovered. *)
Lemma fallback_fit_error_is_not_recovered :
  from_documents [Sample.blank] = Raise (ProviderError "unreachable")
  /\ fit_rejects (map page_content [Sample.blank]) = true
  /\ create_vector_store [Sample.blank] = Raise ValueError.
Proof. repeat split. Qed.

(** C8 (as amended).  No [add_documents] looks at the text of a chunk:
    nothing is skipped.  On the TF-IDF store the call either raises,
    when the fit rejects the texts, and then for the whole sequence; or
    it returns a store that holds the given sequence as it came, with
    one row for each of its chunks.  The embedding store appends the
    whole sequence and one encoded row for each of its chunks. *)
Theorem add_documents_skips_nothing {L : Libraries} (docs : list Document) :
  (forall before : LocalVectorStore.t,
      (fit_rejects (map page_content docs) = true ->
       LocalVectorStore.add_documents_call before docs = Raise ValueError)
      /\ (fit_rejects (map page_content docs) = false ->
          exists (store : LocalVectorStore.t) (rows : list vec),
            LocalVectorStore.add_documents_call before docs = Ok store
            /\ LocalVectorStore.documents store = docs
            /\ LocalVectorStore.embeddings store = Some rows
            /\ List.length rows = List.length docs))
  /\ (forall before : LocalEmbeddingVectorStore.t,
         LocalEmbeddingVectorStore.documents
           (LocalEmbeddingVectorStore.add_documents before docs)
         = LocalEmbeddingVectorStore.documents before ++ docs
         /\ LocalEmbeddingVectorStore.embeddings
              (LocalEmbeddingVectorStore.add_documents before docs)
            = Some (match LocalEmbeddingVectorStore.embeddings before with
                    | Some rows => rows
                    | None => []
                    end
                    ++ map (fun d => encode (page_content d)) docs)).
Proof.
  split; intros before.
  - unfold LocalVectorStore.add_documents_call.
    split; intros Hfit; rewrite Hfit; [reflexivity |].
    exists (LocalVectorStore.add_documents before docs),
           (snd (fit_transform (map page_content docs))).
    split; [reflexivity |]. split; [reflexivity |]. split; [reflexivity |].
    rewrite fit_transform_rows. apply length_map.
  - split; [reflexivity |].
    unfold LocalEmbeddingVectorStore.add_documents. simpl. rewrite map_map.
    destruct (LocalEmbeddingVectorStore.embeddings before); reflexivity.
Qed.

(** C8 on the stand-in libraries: an empty chunk and a "card" chunk. *)
Lemma add_documents_skips_nothing_witness :
  fit_rejects (map page_content [Sample.blank; Sample.card1]) = false
  /\ exists (store : LocalVectorStore.t) (rows : list vec),
      LocalVectorStore.add_documents_call LocalVectorStore.init
        [Sample.blank; Sample.card1] = Ok store
      /\ LocalVectorStore.documents store = [Sample.blank; Sample.card1]
      /\ LocalVectorStore.embeddings store = Some rows
      /\ List.length rows = 2.
Proof.
  split; [reflexivity |].
  exact (proj2 (proj1 (@add_documents_skips_nothing Stub.libraries
                         [Sample.blank; Sample.card1])
                      LocalVectorStore.init) eq_refl).
Defined.

(** C8 as stated fails, both ways.  A chunk with empty text given
    together with a chunk that has text is indexed like any other: it is
    stored, it has a row of its own, and the embedding store returns it
    from a search.  Given alone, it makes the TF-IDF [add_documents]
    raise, and nothing is indexed. *)
Lemma empty_chunk_is_indexed :
  page_content Sample.blank = ""%string
  /\ LocalVectorStore.add_documents_call LocalVectorStore.init
       [Sample.blank; Sample.card1]
     = Ok {| LocalVectorStore.vectorizer := Some ["card"]%string;
             LocalVectorStore.documents := [Sample.blank; Sample.card1];
             LocalVectorStore.embeddings := Some [[0]; [1]]%Q |}
  /\ LocalVectorStore.add_documents_call LocalVectorStore.init [Sample.blank]
     = Raise ValueError
  /\ LocalEmbeddingVectorStore.similarity_search
       (LocalEmbeddingVectorStore.add_documents LocalEmbeddingVectorStore.init
          [Sample.blank; Sample.card1]) "card" 3
     = Ok [Sample.card1; Sample.blank].
Proof. repeat split. Qed.

End LocalFallback.
